(** * Ghost Detector: a shallow embedding of the alarm system, the ghost
    analyzer and the data logger, with their specification properties.

    Python numbers (the probabilities, sensor values and weights) are
    modelled as rationals [Q]: every comparison the code makes is against
    an exact constant, and the clamps are written as the code writes them.
    Time stamps are seconds as [Z]; the clock ([datetime.now()]) and the
    random draws are explicit inputs of the functions that read them. *)

From Stdlib Require Import QArith Qround Lqa String List ZArith Lia Bool.
Import ListNotations.

(* ------------------------------------------------------------------ *)
(** ** Python helpers *)

Section PyHelpers.
Context {A : Type}.

(** [l[-n:]] for a list [l] and a natural [n >= 1]. *)
Definition py_tail (n : nat) (l : list A) : list A :=
  skipn (length l - n) l.

(** [l[-k:]] for an arbitrary Python integer [k]: [l[-0:]] is [l[0:]],
    the whole list, and a negative [k] slices from index [-k]. *)
Definition py_slice_last (k : Z) (l : list A) : list A :=
  if (k <=? 0)%Z then skipn (Z.to_nat (- k)) l
  else skipn (length l - Z.to_nat k) l.

(** [lst.append(x)] followed by [if len(lst) > cap: lst = lst[-cap:]]. *)
Definition list_append_trunc (cap : nat) (l : list A) (x : A) : list A :=
  let ys := (l ++ [x])%list in
  if cap <? length ys then py_tail cap ys else ys.

(** [d.append(x)] on a [deque(maxlen=cap)]: append on the right, and drop
    the leftmost element when the length goes over [maxlen]. *)
Definition deque_append (maxlen : nat) (d : list A) (x : A) : list A :=
  let ys := (d ++ [x])%list in
  if maxlen <? length ys then tl ys else ys.

(** [l[i] = x] for an index already checked to be in range. *)
Fixpoint list_set (l : list A) (i : nat) (f : A -> A) : list A :=
  match l, i with
  | [], _ => []
  | y :: ys, O => f y :: ys
  | y :: ys, S j => y :: list_set ys j f
  end.

End PyHelpers.

(** [a > b] on Python numbers. *)
Definition py_gt (a b : Q) : bool := negb (Qle_bool a b).
(** [a < b] on Python numbers. *)
Definition py_lt (a b : Q) : bool := negb (Qle_bool b a).

(** [min(a, b)]: the first argument unless the second is smaller. *)
Definition py_min (a b : Q) : Q := if py_lt b a then b else a.
(** [max(a, b)]: the first argument unless the second is larger. *)
Definition py_max (a b : Q) : Q := if py_gt b a then b else a.
(** [max(lo, min(hi, x))]. *)
Definition py_clamp (lo hi x : Q) : Q := py_max lo (py_min hi x).

(* ------------------------------------------------------------------ *)
(** ** alarm_system.py *)

Module Alarm.

Local Open Scope string_scope.
Local Open Scope list_scope.

Inductive AlarmLevel := NONE | WARNING | CRITICAL | EMERGENCY.

(** [AlarmLevel.value] *)
Definition value (l : AlarmLevel) : nat :=
  match l with NONE => 0 | WARNING => 1 | CRITICAL => 2 | EMERGENCY => 3 end%nat.

Definition level_eqb (a b : AlarmLevel) : bool := Nat.eqb (value a) (value b).

Record Alert := mkAlert {
  alert_timestamp : Z;
  alert_message : string;
  alert_type : string;
  alert_acknowledged : bool }.

(** An entry of [alarm_history], written by [_log_state_change]. *)
Record StateChange := mkStateChange {
  sc_timestamp : Z;
  sc_previous_state : AlarmLevel;
  sc_current_state : AlarmLevel;
  sc_probability : option Q;
  sc_ghost_type : option string }.

(** The keys of the analysis dict that [trigger_alarm] reads
    ([analysis.get('probability', 0)] and [analysis.get('ghost_type')]). *)
Record AnalysisView := mkView {
  view_probability : option Q;
  view_ghost_type : option string }.

(** [AlarmSystem]; [sounds] records the detached sound threads started by
    [_play_alert_sound], in start order. *)
Record AlarmSystem := mkAlarmSystem {
  alarm_state : AlarmLevel;
  alarm_history : list StateChange;
  active_alerts : list Alert;
  running : bool;
  sounds : list AlarmLevel }.

Definition init : AlarmSystem := mkAlarmSystem NONE [] [] true [].

Definition msg_emergency := "🚨 EMERGENCY: Extreme paranormal activity detected!".
Definition msg_critical := "⚠️ CRITICAL: Ghost confirmed - immediate attention required".
Definition msg_warning := "📢 WARNING: Significant paranormal activity detected".
Definition msg_cleared := "✅ All alarms cleared".

Definition _add_alert (now : Z) (message alert_type : string)
    (alerts : list Alert) : list Alert :=
  list_append_trunc 20 alerts (mkAlert now message alert_type false).

Definition _log_state_change (now : Z) (previous current : AlarmLevel)
    (analysis : AnalysisView) (hist : list StateChange) : list StateChange :=
  list_append_trunc 100 hist
    (mkStateChange now previous current
       (view_probability analysis) (view_ghost_type analysis)).

Definition _play_alert_sound (level : AlarmLevel) (s : list AlarmLevel) :=
  (s ++ [level])%list.

Definition trigger_alarm (now : Z) (analysis : AnalysisView)
    (s : AlarmSystem) : AlarmSystem :=
  let probability :=
    match view_probability analysis with Some p => p | None => 0%Q end in
  let previous_state := alarm_state s in
  let '(state, alerts) :=
    if py_gt probability 90 then
      (EMERGENCY, _add_alert now msg_emergency "emergency" (active_alerts s))
    else if py_gt probability 80 then
      (CRITICAL, _add_alert now msg_critical "critical" (active_alerts s))
    else if py_gt probability 60 then
      (WARNING, _add_alert now msg_warning "warning" (active_alerts s))
    else (NONE, active_alerts s) in
  let hist :=
    if negb (level_eqb previous_state state)
    then _log_state_change now previous_state state analysis (alarm_history s)
    else alarm_history s in
  let snd :=
    if Nat.ltb (value previous_state) (value state)
    then _play_alert_sound state (sounds s) else sounds s in
  mkAlarmSystem state hist alerts (running s) snd.

(** [acknowledge_alert]: the new state and the returned boolean. *)
Definition acknowledge_alert (alert_index : Z) (s : AlarmSystem)
    : AlarmSystem * bool :=
  if ((0 <=? alert_index) && (alert_index <? Z.of_nat (length (active_alerts s))))%Z
  then (mkAlarmSystem (alarm_state s) (alarm_history s)
          (list_set (active_alerts s) (Z.to_nat alert_index)
             (fun a => mkAlert (alert_timestamp a) (alert_message a)
                         (alert_type a) true))
          (running s) (sounds s), true)
  else (s, false).

Definition clear_alarms (now : Z) (s : AlarmSystem) : AlarmSystem :=
  mkAlarmSystem NONE (alarm_history s) (_add_alert now msg_cleared "info" [])
    (running s) (sounds s).

Definition simulate_emergency (now : Z) (s : AlarmSystem) : AlarmSystem :=
  trigger_alarm now (mkView (Some 95%Q) (Some "Poltergeist")) s.

Definition shutdown (now : Z) (s : AlarmSystem) : AlarmSystem :=
  clear_alarms now (mkAlarmSystem (alarm_state s) (alarm_history s)
                      (active_alerts s) false (sounds s)).

(** The public operations of [AlarmSystem] that change its state. *)
Inductive Op :=
  | OpTrigger (now : Z) (a : AnalysisView)
  | OpAcknowledge (i : Z)
  | OpClear (now : Z)
  | OpSimulate (now : Z)
  | OpShutdown (now : Z).

Definition step (s : AlarmSystem) (o : Op) : AlarmSystem :=
  match o with
  | OpTrigger now a => trigger_alarm now a s
  | OpAcknowledge i => fst (acknowledge_alert i s)
  | OpClear now => clear_alarms now s
  | OpSimulate now => simulate_emergency now s
  | OpShutdown now => shutdown now s
  end.

Definition run (s : AlarmSystem) (os : list Op) : AlarmSystem :=
  fold_left step os s.

(** The level [trigger_alarm] moves to, read off its branches. *)
Definition level_of (p : Q) : AlarmLevel :=
  if py_gt p 90 then EMERGENCY
  else if py_gt p 80 then CRITICAL
  else if py_gt p 60 then WARNING
  else NONE.

(** [get_status]: the four values of the returned dict ([current_level] is
    the level whose [.name] the dict holds). *)
Record Status := mkStatus {
  current_level : AlarmLevel;
  active_count : nat;
  unacknowledged : nat;
  recent_history : list StateChange }.

Definition get_status (s : AlarmSystem) : Status :=
  mkStatus (alarm_state s) (length (active_alerts s))
    (length (filter (fun a => negb (alert_acknowledged a)) (active_alerts s)))
    (match alarm_history s with [] => [] | _ :: _ => py_tail 5 (alarm_history s) end).

Definition get_alerts (include_acknowledged : bool) (s : AlarmSystem) : list Alert :=
  if include_acknowledged then active_alerts s
  else filter (fun a => negb (alert_acknowledged a)) (active_alerts s).

End Alarm.

(* ------------------------------------------------------------------ *)
(** ** ghost_analyzer.py *)

(** [round(x, 1)]: [x] to the nearest tenth, ties to the even tenth. *)
Definition py_round1 (x : Q) : Q :=
  let y := (10 * x)%Q in
  let n := Qfloor y in
  let f := (y - inject_Z n)%Q in
  let m :=
    if py_lt f (1 # 2) then n
    else if py_gt f (1 # 2) then (n + 1)%Z
    else if Z.even n then n else (n + 1)%Z in
  Qmake m 10.

(** The error monad of the embedding: [None] is an exception raised by the
    Python code ([ZeroDivisionError], [KeyError]). *)
Definition bind {A B : Type} (m : option A) (f : A -> option B) : option B :=
  match m with Some a => f a | None => None end.
Notation "'let*' x ':=' m 'in' f" := (bind m (fun x => f))
  (at level 200, x name, m at level 100, f at level 200).

(** [a / b], raising [ZeroDivisionError] on a zero divisor. *)
Definition py_div (a b : Q) : option Q :=
  if Qeq_bool b 0 then None else Some (a / b)%Q.

(** [s1 in s2] on strings (substring test). *)
Fixpoint py_str_in (s1 s2 : string) : bool :=
  String.prefix s1 s2 ||
  match s2 with EmptyString => false | String _ s2' => py_str_in s1 s2' end.

Module Analyzer.

Local Open Scope string_scope.
Local Open Scope list_scope.

(** A sensor dict: name to value; [sensor in data] and [data.get] read
    the first binding of a name. *)
Definition Snapshot := list (string * Q).

Fixpoint lookup {V : Type} (k : string) (d : list (string * V)) : option V :=
  match d with
  | [] => None
  | (k', v) :: d' => if String.eqb k k' then Some v else lookup k d'
  end.

(** [data.get(k, default)] *)
Definition get (d : Snapshot) (k : string) (default : Q) : Q :=
  match lookup k d with Some v => v | None => default end.

(** [data[k]], raising [KeyError] on a missing key. *)
Definition index (d : Snapshot) (k : string) : option Q := lookup k d.

(** One string of [_gather_evidence]; the f-string is kept as the value
    it formats. *)
Inductive Evidence :=
  | EMFSpike (v : Q)
  | ColdSpot (v : Q)
  | SpectralAnomaly (v : Q)
  | MotionDetected (v : Q)
  | HumiditySurge (v : Q)
  | PressureDrop (v : Q).

(** The analysis dict built by [analyze]. *)
Record Analysis := mkAnalysis {
  timestamp : Z;
  probability : Q;
  ghost_type : option string;
  evidence : list Evidence;
  confidence : Q;
  activity_level : string;
  recommendations : list string }.

Definition ghost_types : list string :=
  ["Poltergeist"; "Wraith"; "Phantom"; "Specter"; "Banshee"; "Apparition";
   "Shadow Person"; "Orb"; "Mist Entity"; "Ectoplasm"].

(** [self.evidence_weights], in its iteration order. *)
Definition evidence_weights : list (string * Q) :=
  [("emf", 30 # 100); ("temperature", 25 # 100); ("spectral", 25 # 100);
   ("motion", 15 # 100); ("humidity", 3 # 100); ("pressure", 2 # 100)].

(** The [ranges] dict of [_normalize_sensor]. *)
Definition ranges : list (string * (Q * Q)) :=
  [("emf", (0, 100)); ("temperature", (40, 90)); ("humidity", (20, 80));
   ("pressure", (980, 1030)); ("spectral", (0, 1000)); ("motion", (0, 100))].

Definition _normalize_sensor (sensor : string) (value : Q) : option Q :=
  match lookup sensor ranges with
  | Some (min_val, max_val) =>
      let* d := py_div (value - min_val) (max_val - min_val) in
      let normalized := if String.eqb sensor "temperature" then (1 - d)%Q else d in
      Some (py_max 0 (py_min 1 normalized))
  | None => Some 0%Q
  end.

(** The weighted-scoring loop of [_calculate_probability] and its guarded
    average: [base_probability]. *)
Fixpoint weighted_sum (data : Snapshot) (ws : list (string * Q))
    (score total_weight : Q) : option (Q * Q) :=
  match ws with
  | [] => Some (score, total_weight)
  | (sensor, weight) :: ws' =>
      match lookup sensor data with
      | Some v =>
          let* normalized_value := _normalize_sensor sensor v in
          weighted_sum data ws' (score + normalized_value * weight)%Q
            (total_weight + weight)%Q
      | None => weighted_sum data ws' score total_weight
      end
  end.

Definition base_probability (data : Snapshot) : option Q :=
  let* st := weighted_sum data evidence_weights 0 0 in
  let '(score, total_weight) := st in
  if py_gt total_weight 0 then
    let* r := py_div score total_weight in Some (r * 100)%Q
  else Some 0%Q.

(** The time-of-day modifier, from [datetime.now().hour]. *)
Definition time_modifier (current_hour : Z) : Q :=
  if ((current_hour <? 6) || (20 <? current_hour))%Z then 15
  else if ((current_hour <? 8) || (18 <? current_hour))%Z then 5
  else 0.

Definition _analyze_patterns (history : list Analysis) : Q :=
  if (length history <? 10)%nat then 0
  else
    let recent := py_tail 10 history in
    let probabilities := map probability recent in
    if (1 <? length probabilities)%nat then
      let trend := (last probabilities 0 - hd 0 probabilities)%Q in
      if py_gt trend 20 then 15
      else if py_gt trend 10 then 8
      else 0
    else 0.

Definition _calculate_probability (data : Snapshot) (current_hour : Z)
    (history : list Analysis) : option Q :=
  let* base := base_probability data in
  let prob := (base + time_modifier current_hour + _analyze_patterns history)%Q in
  Some (py_max 0 (py_min 100 prob)).

(** [_identify_ghost_type]; [choice] is the index drawn by
    [random.choice(self.ghost_types)] (taken modulo the catalogue size). *)
Definition _identify_ghost_type (data : Snapshot) (choice : nat) : string :=
  let p_emf :=
    if py_gt (get data "emf" 0) 70 then [("emf", "high")]
    else if py_gt (get data "emf" 0) 50 then [("emf", "medium")] else [] in
  let p_temp :=
    if py_lt (get data "temperature" 72) 50 then [("temperature", "cold")] else [] in
  let p_spec :=
    if py_gt (get data "spectral" 0) 600 then [("spectral", "high_frequency")] else [] in
  let p_motion :=
    if py_gt (get data "motion" 0) 60 then [("motion", "active")] else [] in
  let evidence_profile := p_emf ++ p_temp ++ p_spec ++ p_motion in
  let in_values v := existsb (fun kv => String.eqb (snd kv) v) evidence_profile in
  let pget k := match lookup k evidence_profile with Some v => v | None => "" end in
  if in_values "cold" && in_values "high_frequency" then "Wraith"
  else if py_str_in "high" (pget "emf") && py_str_in "active" (pget "motion")
  then "Poltergeist"
  else if py_str_in "high_frequency" (pget "spectral") then "Specter"
  else if py_str_in "cold" (pget "temperature") then "Phantom"
  else if py_str_in "active" (pget "motion") then "Apparition"
  else nth (choice mod length ghost_types) ghost_types "".

(** One [if ...: evidence.append(f"...{data[k]}...")] step. *)
Definition evidence_step (data : Snapshot) (cond : bool) (k : string)
    (mk : Q -> Evidence) (acc : list Evidence) : option (list Evidence) :=
  if cond then let* v := index data k in Some (acc ++ [mk v])
  else Some acc.

Definition _gather_evidence (data : Snapshot) : option (list Evidence) :=
  let* e1 := evidence_step data (py_gt (get data "emf" 0) 50) "emf" EMFSpike [] in
  let* e2 := evidence_step data (py_lt (get data "temperature" 72) 55)
               "temperature" ColdSpot e1 in
  let* e3 := evidence_step data (py_gt (get data "spectral" 0) 500)
               "spectral" SpectralAnomaly e2 in
  let* e4 := evidence_step data (py_gt (get data "motion" 0) 50)
               "motion" MotionDetected e3 in
  let* e5 := evidence_step data (py_gt (get data "humidity" 45) 65)
               "humidity" HumiditySurge e4 in
  let* e6 := evidence_step data (py_lt (get data "pressure" 1013) 995)
               "pressure" PressureDrop e5 in
  Some (firstn 5 e6).

(** The per-sensor thresholds of [_calculate_confidence]. *)
Definition confidence_thresholds : list (string * Q) :=
  [("emf", 60); ("temperature", 55); ("spectral", 500); ("motion", 60)].

Definition sensors_triggered (data : Snapshot) : nat :=
  length (filter (fun st => py_gt (get data (fst st) 0) (snd st))
            confidence_thresholds).

Definition recent_detections (history : list Analysis) : nat :=
  length (filter (fun h => py_gt (probability h) 50) (py_tail 5 history)).

(** [_calculate_confidence]; [r] is the draw of [random.uniform(5, 15)]. *)
Definition _calculate_confidence (data : Snapshot) (history : list Analysis)
    (r : Q) : Q :=
  let confidence_factors :=
    [inject_Z (Z.of_nat (sensors_triggered data) * 15)]
    ++ (if (5 <? length history)%nat
        then [inject_Z (Z.of_nat (recent_detections history) * 8)] else [])
    ++ [r] in
  py_min 100 (fold_left Qplus confidence_factors 0).

Definition _generate_recommendations (prob : Q) : list string :=
  if py_gt prob 80 then
    ["⚠️ IMMEDIATE EVACUATION RECOMMENDED"; "Contact paranormal investigation team";
     "Set up additional recording equipment"]
  else if py_gt prob 60 then
    ["Maintain observation - activity increasing"; "Deploy backup sensors";
     "Document all readings"]
  else if py_gt prob 40 then
    ["Continue monitoring"; "Check sensor calibration"; "Note environmental conditions"]
  else ["Normal conditions"; "Perform routine sensor check"].

Definition activity_label (p : Q) : string :=
  if py_lt p 30 then "Low"
  else if py_lt p 60 then "Moderate"
  else if py_lt p 80 then "High"
  else "Critical".

(** [analyze]: the returned analysis and the new [self.history]
    ([deque(maxlen=50)]). The clock gives [now] and [current_hour]; [choice]
    and [r] are the random draws. *)
Definition analyze (now current_hour : Z) (choice : nat) (r : Q)
    (data : Snapshot) (history : list Analysis)
    : option (Analysis * list Analysis) :=
  let* prob := _calculate_probability data current_hour history in
  let rounded := py_round1 prob in
  let level := activity_label prob in
  let* analysis :=
    if py_gt prob 40 then
      let gt := _identify_ghost_type data choice in
      let* ev := _gather_evidence data in
      let conf := py_round1 (_calculate_confidence data history r) in
      Some (mkAnalysis now rounded (Some gt) ev conf level
              (_generate_recommendations rounded))
    else Some (mkAnalysis now rounded None [] 0 level []) in
  Some (analysis, deque_append 50 history analysis).

End Analyzer.

(* ------------------------------------------------------------------ *)
(** ** data_logger.py *)

Module Logger.

Local Open Scope string_scope.
Local Open Scope list_scope.

Import Analyzer.

Record LogEntry := mkLogEntry {
  log_timestamp : Z;
  log_sensors : Snapshot;
  log_analysis : Analysis }.

(** The [event_data] dict handed to [log_event]. *)
Record EventData := mkEventData {
  ed_type : option string;
  ed_timestamp : option Z;
  ed_probability : option Q;
  ed_ghost_type : option string;
  ed_evidence : list Evidence }.

Record EventEntry := mkEventEntry {
  event_timestamp : Z;
  event_type : string;
  event_data : EventData }.

(** [DataLogger]: [logs] is a [deque(maxlen=1000)], [events] a
    [deque(maxlen=500)]. *)
Record DataLogger := mkLogger {
  logs : list LogEntry;
  events : list EventEntry }.

(** [_load_logs] at construction: every entry of the file's lists is
    appended to the empty deques. *)
Definition load (file_logs : list LogEntry) (file_events : list EventEntry)
    : DataLogger :=
  mkLogger (fold_left (deque_append 1000) file_logs [])
           (fold_left (deque_append 500) file_events []).

Definition log_event (now : Z) (event_data : EventData) (s : DataLogger)
    : DataLogger :=
  let e := mkEventEntry
             (match ed_timestamp event_data with Some t => t | None => now end)
             (match ed_type event_data with Some t => t | None => "info" end)
             event_data in
  mkLogger (logs s) (deque_append 500 (events s) e).

(** The result of a call: it returns, or it blocks for ever, leaving the
    state it had reached and holding [self.lock]. *)
Inductive Outcome :=
  | Returned (s : DataLogger)
  | Blocked (s : DataLogger).

(** [log_reading] holds [self.lock] (a non-reentrant [threading.Lock]) and,
    for a probability above 60, calls [log_event], which acquires the same
    lock again: that call never returns, after the log entry is appended. *)
Definition log_reading (now : Z) (sensor_data : Snapshot) (analysis : Analysis)
    (s : DataLogger) : Outcome :=
  let s' := mkLogger (deque_append 1000 (logs s)
                        (mkLogEntry now sensor_data analysis)) (events s) in
  if py_gt (probability analysis) 60 then Blocked s' else Returned s'.

(** [clear_old_logs]: keep the entries newer than the cutoff, in a new
    [deque(..., maxlen=1000)]. *)
Definition clear_old_logs (now days : Z) (s : DataLogger) : DataLogger :=
  let cutoff := (now - days * 86400)%Z in
  mkLogger (py_tail 1000 (filter (fun l => cutoff <? log_timestamp l)%Z (logs s)))
           (events s).

(** [get_events(event_type, limit)]; an [event_type] of [None] or [""] is
    falsy and selects no filtering. *)
Definition get_events (event_type : option string) (limit : Z) (s : DataLogger)
    : list EventEntry :=
  match event_type with
  | Some t =>
      if String.eqb t "" then py_slice_last limit (events s)
      else filter (fun e => match ed_type (event_data e) with
                            | Some t' => String.eqb t' t
                            | None => false
                            end)
             (py_slice_last limit (events s))
  | None => py_slice_last limit (events s)
  end.

(** [d[k] = d.get(k, 0) + 1] on an insertion-ordered dict. *)
Fixpoint dict_incr {K : Type} (eqb : K -> K -> bool) (k : K)
    (d : list (K * nat)) : list (K * nat) :=
  match d with
  | [] => [(k, 1%nat)]
  | (k', n) :: d' =>
      if eqb k k' then (k', S n) :: d' else (k', n) :: dict_incr eqb k d'
  end.

(** [max(items, key=...)]: the first item whose key no later item
    exceeds. *)
Definition max_by_count {K : Type} (items : list (K * nat)) : option (K * nat) :=
  match items with
  | [] => None
  | x :: xs =>
      Some (fold_left (fun m y => if (snd m <? snd y)%nat then y else m) xs x)
  end.

(** [datetime.fromisoformat(ts).hour] for a time stamp in seconds. *)
Definition hour_of (t : Z) : Z := Z.modulo (Z.div t 3600) 24.

Definition hour_counts (ls : list LogEntry) : list (Z * nat) :=
  fold_left (fun d l => dict_incr Z.eqb (hour_of (log_timestamp l)) d) ls [].

Inductive ActiveHour :=
  | HourRange (hour : Z) (readings : nat)
  | Unknown.

Definition _get_most_active_hour (ls : list LogEntry) : ActiveHour :=
  match max_by_count (hour_counts ls) with
  | Some (h, n) => HourRange h n
  | None => Unknown
  end.

Record Report := mkReport {
  period_hours : Z;
  total_readings : nat;
  avg_activity : Q;
  total_detections : nat;
  max_probability : Q;
  min_probability : Q;
  ghost_type_breakdown : list (string * nat);
  most_active_hour : ActiveHour;
  generated : Z }.

Inductive ReportResult :=
  | NoData
  | ReportOk (r : Report).

(** [max(xs)] / [min(xs)] for a non-empty list, and [0] otherwise, as the
    [... if probabilities else 0] guards say. *)
Definition list_max (xs : list Q) : Q :=
  match xs with [] => 0 | x :: xs' => fold_left py_max xs' x end.
Definition list_min (xs : list Q) : Q :=
  match xs with [] => 0 | x :: xs' => fold_left py_min xs' x end.

Definition in_window (now hours : Z) (l : LogEntry) : bool :=
  (now - hours * 3600 <? log_timestamp l)%Z.

Definition type_breakdown (detections : list LogEntry) : list (string * nat) :=
  fold_left (fun d l => match ghost_type (log_analysis l) with
                        | Some g => if String.eqb g "" then d else dict_incr String.eqb g d
                        | None => d
                        end) detections [].

Definition generate_report (now hours : Z) (s : DataLogger)
    : option ReportResult :=
  let recent_logs := filter (in_window now hours) (logs s) in
  match recent_logs with
  | [] => Some NoData
  | _ :: _ =>
      let probabilities := map (fun l => probability (log_analysis l)) recent_logs in
      let* avg_probability :=
        match probabilities with
        | [] => Some 0%Q
        | _ => py_div (fold_left Qplus probabilities 0)
                      (inject_Z (Z.of_nat (length probabilities)))
        end in
      let detections :=
        filter (fun l => py_gt (probability (log_analysis l)) 50) recent_logs in
      Some (ReportOk (mkReport hours (length recent_logs) (py_round1 avg_probability)
              (length detections) (list_max probabilities) (list_min probabilities)
              (type_breakdown detections) (_get_most_active_hour recent_logs) now))
  end.

(** The operations of [DataLogger] that change its state. *)
Inductive Op :=
  | OpLogReading (now : Z) (d : Snapshot) (a : Analysis)
  | OpLogEvent (now : Z) (e : EventData)
  | OpClearOld (now days : Z).

Definition step (s : DataLogger) (o : Op) : Outcome :=
  match o with
  | OpLogReading now d a => log_reading now d a s
  | OpLogEvent now e => Returned (log_event now e s)
  | OpClearOld now days => Returned (clear_old_logs now days s)
  end.

(** A sequence of calls; once a call blocks, the lock is held for ever and
    no later call gets through. *)
Fixpoint run (s : DataLogger) (os : list Op) : Outcome :=
  match os with
  | [] => Returned s
  | o :: os' =>
      match step s o with
      | Returned s' => run s' os'
      | Blocked s' => Blocked s'
      end
  end.

(** [get_recent_logs(count)]: [list(self.logs)[-count:]]. *)
Definition get_recent_logs (count : Z) (s : DataLogger) : list LogEntry :=
  py_slice_last count (logs s).

(** [clear_old_logs] with the number [removed] its message reports. *)
Definition clear_old_logs_removed (now days : Z) (s : DataLogger)
    : DataLogger * Z :=
  let original_count := Z.of_nat (length (logs s)) in
  let s' := clear_old_logs now days s in
  (s', original_count - Z.of_nat (length (logs s')))%Z.

End Logger.

(* ------------------------------------------------------------------ *)
(** ** sensor_manager.py *)

Module Sensors.

Local Open Scope string_scope.
Local Open Scope list_scope.

(** One entry of [self.sensors]: its ['value'], ['min'], ['max'] and
    ['unit']. *)
Record Channel := mkChannel {
  ch_value : Q;
  ch_min : Q;
  ch_max : Q;
  ch_unit : string }.

(** [self.sensors]: its six keys never change. *)
Record SensorTable := mkSensorTable {
  emf : Channel;
  temperature : Channel;
  humidity : Channel;
  pressure : Channel;
  spectral : Channel;
  motion : Channel }.

(** [self.calibration_offset], with the same six keys. *)
Record Offsets := mkOffsets {
  off_emf : Q;
  off_temperature : Q;
  off_humidity : Q;
  off_pressure : Q;
  off_spectral : Q;
  off_motion : Q }.

(** An entry of [self.activity_patterns]: ['timestamp'] and ['level']. *)
Record Pattern := mkPattern {
  pat_timestamp : Z;
  pat_level : Q }.

Record SensorManager := mkSensorManager {
  running : bool;
  sensors : SensorTable;
  start_time : option Z;
  calibration_offset : Offsets;
  ghost_activity : Q;
  activity_patterns : list Pattern }.

Definition init : SensorManager :=
  mkSensorManager false
    (mkSensorTable (mkChannel 0 0 100 "mG") (mkChannel 72 40 90 "°F")
       (mkChannel 45 20 80 "%") (mkChannel 1013 980 1030 "hPa")
       (mkChannel 0 0 1000 "MHz") (mkChannel 0 0 100 ""))
    None (mkOffsets 0 0 0 0 0 0) 0 [].

(** The random draws and [math.sin] values one [_update_sensor_readings]
    call reads, named after the call that produces them. *)
Record Draws := mkDraws {
  random_activity : Q;   (* random.uniform(0, 40) *)
  cycle_sin : Q;         (* math.sin(time.time() * 0.1) *)
  emf_jitter : Q;        (* random.uniform(-5, 5) *)
  emf_roll : Q;          (* random.random() *)
  emf_spike : Q;         (* random.uniform(30, 50) *)
  temp_jitter : Q;       (* random.uniform(-1, 1) *)
  hum_jitter : Q;        (* random.uniform(-3, 3) *)
  hum_rise : Q;          (* random.uniform(5, 15) *)
  pres_jitter : Q;       (* random.uniform(-2, 2) *)
  pres_drop : Q;         (* random.uniform(-10, -5) *)
  spec_base : Q;         (* random.uniform(100, 300) *)
  spec_sin : Q;          (* math.sin(time.time()) *)
  spec_roll : Q;         (* random.random() *)
  spec_spike : Q;        (* random.uniform(200, 400) *)
  motion_base : Q }.     (* random.uniform(0, 20) *)

(** [_calculate_ghost_activity]: the returned level and the new
    [activity_patterns]; [now] and [current_hour] come from the clock. *)
Definition _calculate_ghost_activity (now current_hour : Z) (d : Draws)
    (patterns : list Pattern) : Q * list Pattern :=
  let time_factor := if ((current_hour <? 6) || (20 <? current_hour))%Z then 30 else 0 in
  let cycle := ((cycle_sin d + 1) * 15)%Q in
  let activity := (time_factor + random_activity d + cycle)%Q in
  let ps := patterns ++ [mkPattern now activity] in
  let ps := if (100 <? length ps)%nat then tl ps else ps in
  (py_min 100 activity, ps).

Definition _simulate_emf (ghost_activity offset : Q) (d : Draws) : Q :=
  let base := (25 + emf_jitter d)%Q in
  let base := if py_gt ghost_activity 50 then (base + ghost_activity * (7 # 10))%Q else base in
  let base := if py_lt (emf_roll d) (1 # 10) then (base + emf_spike d)%Q else base in
  py_max 0 (py_min 100 (base + offset)).

Definition _simulate_temperature (ghost_activity emf_value offset : Q) (d : Draws) : Q :=
  let base := (72 + temp_jitter d)%Q in
  let base := if py_gt ghost_activity 60 then (base - ghost_activity * (3 # 10))%Q else base in
  let base := if py_gt emf_value 70 then (base - 10)%Q else base in
  py_max 40 (py_min 90 (base + offset)).

Definition _simulate_humidity (ghost_activity offset : Q) (d : Draws) : Q :=
  let base := (45 + hum_jitter d)%Q in
  let base := if py_gt ghost_activity 40 then (base + hum_rise d)%Q else base in
  py_max 20 (py_min 80 (base + offset)).

Definition _simulate_pressure (ghost_activity offset : Q) (d : Draws) : Q :=
  let base := (1013 + pres_jitter d)%Q in
  let base := if py_gt ghost_activity 70 then (base + pres_drop d)%Q else base in
  py_max 980 (py_min 1030 (base + offset)).

Definition _simulate_spectral (ghost_activity offset : Q) (d : Draws) : Q :=
  let base := spec_base d in
  let base := if py_gt ghost_activity 30
              then (base + (spec_sin d * 50 + ghost_activity * 5))%Q else base in
  let base := if py_lt (spec_roll d) (15 # 100) then (base + spec_spike d)%Q else base in
  py_max 0 (py_min 1000 (base + offset)).

Definition _simulate_motion (ghost_activity emf_value offset : Q) (d : Draws) : Q :=
  let base := motion_base d in
  let base := if py_gt ghost_activity 50 then (base + ghost_activity * (4 # 10))%Q else base in
  let base := if py_gt emf_value 60 then (base + 30)%Q else base in
  py_max 0 (py_min 100 (base + offset)).

(** [self.sensors[k]['value'] = v] *)
Definition set_value (c : Channel) (v : Q) : Channel :=
  mkChannel v (ch_min c) (ch_max c) (ch_unit c).

(** [_update_sensor_readings]: the activity first, then the channels in
    order; temperature and motion read the EMF value just written. *)
Definition _update_sensor_readings (now current_hour : Z) (d : Draws)
    (s : SensorManager) : SensorManager :=
  let '(ga, ps) := _calculate_ghost_activity now current_hour d (activity_patterns s) in
  let off := calibration_offset s in
  let t := sensors s in
  let e := _simulate_emf ga (off_emf off) d in
  let tp := _simulate_temperature ga e (off_temperature off) d in
  let h := _simulate_humidity ga (off_humidity off) d in
  let p := _simulate_pressure ga (off_pressure off) d in
  let sp := _simulate_spectral ga (off_spectral off) d in
  let m := _simulate_motion ga e (off_motion off) d in
  mkSensorManager (running s)
    (mkSensorTable (set_value (emf t) e) (set_value (temperature t) tp)
       (set_value (humidity t) h) (set_value (pressure t) p)
       (set_value (spectral t) sp) (set_value (motion t) m))
    (start_time s) off ga ps.

(** [get_all_readings]: every value rounded to one decimal, in the dict's
    order. *)
Definition get_all_readings (s : SensorManager) : list (string * Q) :=
  let t := sensors s in
  [("emf", py_round1 (ch_value (emf t)));
   ("temperature", py_round1 (ch_value (temperature t)));
   ("humidity", py_round1 (ch_value (humidity t)));
   ("pressure", py_round1 (ch_value (pressure t)));
   ("spectral", py_round1 (ch_value (spectral t)));
   ("motion", py_round1 (ch_value (motion t)))].

(** [calibrate]; [offs] are the six draws of [random.uniform(-2, 2)]. *)
Definition calibrate (offs : Offsets) (s : SensorManager) : SensorManager * string :=
  (mkSensorManager (running s) (sensors s) (start_time s) offs 0 [],
   "Calibration successful").

Definition start (now : Z) (s : SensorManager) : SensorManager :=
  if running s then s
  else mkSensorManager true (sensors s) (Some now) (calibration_offset s)
         (ghost_activity s) (activity_patterns s).

Definition stop (s : SensorManager) : SensorManager :=
  mkSensorManager false (sensors s) (start_time s) (calibration_offset s)
    (ghost_activity s) (activity_patterns s).

(** The calls that change a [SensorManager]: one pass of
    [_read_sensors_loop] (it updates only while [running]), [calibrate],
    [start] and [stop]. *)
Inductive Op :=
  | OpTick (now current_hour : Z) (d : Draws)
  | OpCalibrate (offs : Offsets)
  | OpStart (now : Z)
  | OpStop.

Definition step (s : SensorManager) (o : Op) : SensorManager :=
  match o with
  | OpTick now h d => if running s then _update_sensor_readings now h d s else s
  | OpCalibrate offs => fst (calibrate offs s)
  | OpStart now => start now s
  | OpStop => stop s
  end.

Definition run (s : SensorManager) (os : list Op) : SensorManager :=
  fold_left step os s.

End Sensors.

(* ------------------------------------------------------------------ *)
(** ** main.py *)

Module Main.

Import Analyzer Logger.

(** The four module-level components. *)
Record App := mkApp {
  sensor_manager : Sensors.SensorManager;
  analyzer_history : list Analysis;
  data_logger : DataLogger;
  alarm_system : Alarm.AlarmSystem }.

(** The components as the module builds them, the logger reading the log
    file's two lists. *)
Definition boot (file_logs : list LogEntry) (file_events : list EventEntry) : App :=
  mkApp Sensors.init [] (load file_logs file_events) Alarm.init.

(** How a call ends: with the readings dict as the body, with another
    result, with an HTTP 500, or not at all when the handler never
    returns. *)
Inductive Reply :=
  | Answer (body : Snapshot)
  | Done
  | Error500
  | NoReply.

(** [get_sensor_data] ([GET /api/sensors]); [now], [current_hour],
    [choice] and [r] are the clock and the draws [analyze] reads. The body
    is the readings dict; the ['spectralBands'] key added after logging is
    left out. *)
Definition get_sensor_data (now current_hour : Z) (choice : nat) (r : Q) (app : App)
    : App * Reply :=
  let sensor_data := Sensors.get_all_readings (sensor_manager app) in
  match analyze now current_hour choice r sensor_data (analyzer_history app) with
  | None => (app, Error500)
  | Some (ghost_analysis, hist) =>
      match log_reading now sensor_data ghost_analysis (data_logger app) with
      | Blocked dl =>
          (mkApp (sensor_manager app) hist dl (alarm_system app), NoReply)
      | Returned dl =>
          let al :=
            if py_gt (probability ghost_analysis) 70
            then Alarm.trigger_alarm now
                   (Alarm.mkView (Some (probability ghost_analysis))
                                 (ghost_type ghost_analysis))
                   (alarm_system app)
            else alarm_system app in
          (mkApp (sensor_manager app) hist dl al, Answer sensor_data)
      end
  end.

(** [calibrate_sensors] ([POST /api/calibrate]). *)
Definition calibrate_sensors (offs : Sensors.Offsets) (app : App) : App :=
  mkApp (fst (Sensors.calibrate offs (sensor_manager app))) (analyzer_history app)
    (data_logger app) (alarm_system app).

(** What happens to the application: requests to the state-changing
    endpoint handlers, the startup and shutdown hooks, and one pass of the
    sensor thread. *)
Inductive Event :=
  | GetSensors (now current_hour : Z) (choice : nat) (r : Q)
  | Calibrate (offs : Sensors.Offsets)
  | Startup (now : Z)
  | SensorTick (now current_hour : Z) (d : Sensors.Draws).

Definition app_step (app : App) (ev : Event) : App * Reply :=
  match ev with
  | GetSensors now h choice r => get_sensor_data now h choice r app
  | Calibrate offs => (calibrate_sensors offs app, Done)
  | Startup now =>
      (mkApp (Sensors.start now (sensor_manager app)) (analyzer_history app)
         (data_logger app) (alarm_system app), Done)
  | SensorTick now h d =>
      (mkApp (Sensors.step (sensor_manager app) (Sensors.OpTick now h d))
         (analyzer_history app) (data_logger app) (alarm_system app), Done)
  end.

(** A sequence of events; a handler that never returns holds the event
    loop, and nothing after it runs. *)
Fixpoint app_run (app : App) (evs : list Event) : App * bool :=
  match evs with
  | [] => (app, true)
  | ev :: evs' =>
      match app_step app ev with
      | (app', NoReply) => (app', false)
      | (app', _) => app_run app' evs'
      end
  end.

End Main.

(* ------------------------------------------------------------------ *)
(** * Properties *)

(** ** Comparisons, clamps and rounding *)

Lemma py_gt_spec (a b : Q) :
  py_gt a b = if Qlt_le_dec b a then true else false.
Proof.
  unfold py_gt. destruct (Qlt_le_dec b a) as [H|H].
  - destruct (Qle_bool a b) eqn:E; [|reflexivity].
    apply Qle_bool_iff in E. exfalso. apply (Qlt_not_le b a); assumption.
  - apply Qle_bool_iff in H. rewrite H. reflexivity.
Qed.

Lemma py_gt_true (a b : Q) : py_gt a b = true <-> b < a.
Proof.
  rewrite py_gt_spec. destruct (Qlt_le_dec b a) as [H|H]; split; intro K;
    try easy. exfalso. apply (Qlt_not_le b a); assumption.
Qed.

Lemma py_gt_false (a b : Q) : py_gt a b = false <-> a <= b.
Proof.
  rewrite py_gt_spec. destruct (Qlt_le_dec b a) as [H|H]; split; intro K;
    try easy. exfalso. apply (Qlt_not_le b a); assumption.
Qed.

Lemma py_lt_true (a b : Q) : py_lt a b = true <-> a < b.
Proof. apply py_gt_true. Qed.

Lemma py_lt_false (a b : Q) : py_lt a b = false <-> b <= a.
Proof. apply py_gt_false. Qed.

Lemma py_min_bounds (a b : Q) : py_min a b <= a /\ (py_min a b == a \/ py_min a b == b).
Proof.
  unfold py_min. destruct (py_lt b a) eqn:E.
  - apply py_lt_true in E. split; [lra | right; lra].
  - split; [lra | left; lra].
Qed.

Lemma py_max_bounds (a b : Q) : a <= py_max a b /\ (py_max a b == a \/ py_max a b == b).
Proof.
  unfold py_max. destruct (py_gt b a) eqn:E.
  - apply py_gt_true in E. split; [lra | right; lra].
  - split; [lra | left; lra].
Qed.

(** [max(lo, min(hi, x))] lies in [[lo, hi]] whenever [lo <= hi]. *)
Lemma py_clamp_bounds (lo hi x : Q) :
  lo <= hi -> lo <= py_max lo (py_min hi x) <= hi.
Proof.
  intro Hlh. destruct (py_min_bounds hi x) as [H1 H2].
  destruct (py_max_bounds lo (py_min hi x)) as [H3 [H4|H4]]; split; lra.
Qed.

Lemma inject_Z_le (a b : Z) : inject_Z a <= inject_Z b -> (a <= b)%Z.
Proof. unfold Qle; simpl; lia. Qed.

Lemma inject_Z_lt (a b : Z) : inject_Z a < inject_Z b -> (a < b)%Z.
Proof. unfold Qlt; simpl; lia. Qed.

(** Rounding to one decimal stays between two integer bounds. *)
Lemma py_round1_bounds (lo hi : Z) (x : Q) :
  inject_Z lo <= x <= inject_Z hi ->
  inject_Z lo <= py_round1 x <= inject_Z hi.
Proof.
  intros [Hlo Hhi]. unfold py_round1.
  set (n := Qfloor (10 * x)).
  assert (F1 : inject_Z n <= 10 * x) by apply Qfloor_le.
  assert (F2 : 10 * x < inject_Z n + 1).
  { pose proof (Qlt_floor (10 * x)) as H. fold n in H.
    rewrite inject_Z_plus in H. exact H. }
  assert (Nhi : (n <= 10 * hi)%Z).
  { apply inject_Z_le. rewrite inject_Z_mult. change (inject_Z 10) with 10. lra. }
  assert (Nlo : (10 * lo < n + 1)%Z).
  { apply inject_Z_lt. rewrite inject_Z_plus, inject_Z_mult.
    change (inject_Z 10) with 10. change (inject_Z 1) with 1. lra. }
  assert (Goal : forall m : Z, (10 * lo <= m <= 10 * hi)%Z ->
            inject_Z lo <= Qmake m 10 <= inject_Z hi).
  { intros m Hm. unfold Qle; simpl. lia. }
  destruct (py_lt (10 * x - inject_Z n) (1 # 2)) eqn:E1; [apply Goal; lia|].
  apply py_lt_false in E1.
  assert (Nhi' : (n < 10 * hi)%Z).
  { apply inject_Z_lt. rewrite inject_Z_mult. change (inject_Z 10) with 10. lra. }
  destruct (py_gt (10 * x - inject_Z n) (1 # 2)); [apply Goal; lia|].
  destruct (Z.even n); apply Goal; lia.
Qed.

(** ** Bounded rings *)

Section Rings.
Context {A : Type}.

Lemma length_py_tail (n : nat) (l : list A) : (length (py_tail n l) <= n)%nat.
Proof. unfold py_tail. rewrite length_skipn. lia. Qed.

Lemma py_tail_short (n : nat) (l : list A) :
  (length l <= n)%nat -> py_tail n l = l.
Proof. intro H. unfold py_tail. replace (length l - n)%nat with 0%nat by lia. reflexivity. Qed.

Lemma py_tail_app_long (n : nat) (a c : list A) :
  (n <= length c)%nat -> py_tail n (a ++ c) = py_tail n c.
Proof.
  intro H. unfold py_tail. rewrite length_app, skipn_app.
  rewrite skipn_all2 by lia. simpl. f_equal. lia.
Qed.

(** Truncating before appending more loses nothing the final
    truncation keeps. *)
Lemma py_tail_py_tail_app (n : nat) (m ys : list A) :
  py_tail n (py_tail n m ++ ys) = py_tail n (m ++ ys).
Proof.
  destruct (Nat.le_gt_cases (length m) n) as [H|H].
  - rewrite (py_tail_short n m H). reflexivity.
  - rewrite <- (firstn_skipn (length m - n) m) at 2.
    rewrite <- app_assoc. fold (py_tail n m).
    rewrite (py_tail_app_long n (firstn (length m - n) m) (py_tail n m ++ ys));
      [reflexivity|].
    rewrite length_app. unfold py_tail. rewrite length_skipn. lia.
Qed.

Lemma list_append_trunc_tail (cap : nat) (l : list A) (x : A) :
  list_append_trunc cap l x = py_tail cap (l ++ [x]).
Proof.
  unfold list_append_trunc. destruct (cap <? length (l ++ [x]))%nat eqn:E.
  - reflexivity.
  - apply Nat.ltb_ge in E. symmetry. apply py_tail_short. exact E.
Qed.

Lemma length_list_append_trunc (cap : nat) (l : list A) (x : A) :
  (length (list_append_trunc cap l x) <= cap)%nat.
Proof.
  unfold list_append_trunc. destruct (cap <? length (l ++ [x]))%nat eqn:E.
  - apply length_py_tail.
  - apply Nat.ltb_ge in E. exact E.
Qed.

Lemma deque_append_tail (maxlen : nat) (d : list A) (x : A) :
  (length d <= maxlen)%nat -> deque_append maxlen d x = py_tail maxlen (d ++ [x]).
Proof.
  intro H. unfold deque_append, py_tail. rewrite length_app. simpl.
  destruct (maxlen <? length d + 1)%nat eqn:E.
  - apply Nat.ltb_lt in E. replace (length d + 1 - maxlen)%nat with 1%nat by lia.
    destruct (d ++ [x]); reflexivity.
  - apply Nat.ltb_ge in E. replace (length d + 1 - maxlen)%nat with 0%nat by lia.
    reflexivity.
Qed.

Lemma length_deque_append (maxlen : nat) (d : list A) (x : A) :
  (length d <= maxlen)%nat -> (length (deque_append maxlen d x) <= maxlen)%nat.
Proof. intro H. rewrite deque_append_tail by exact H. apply length_py_tail. Qed.

Lemma fold_list_append_trunc (cap : nat) (xs l : list A) :
  (length l <= cap)%nat ->
  fold_left (list_append_trunc cap) xs l = py_tail cap (l ++ xs).
Proof.
  revert l. induction xs as [|x xs IH]; intros l H; simpl.
  - rewrite app_nil_r. symmetry. apply py_tail_short. exact H.
  - rewrite IH by apply length_list_append_trunc.
    rewrite list_append_trunc_tail, py_tail_py_tail_app, <- app_assoc.
    reflexivity.
Qed.

Lemma fold_deque_append (maxlen : nat) (xs d : list A) :
  (length d <= maxlen)%nat ->
  fold_left (deque_append maxlen) xs d = py_tail maxlen (d ++ xs).
Proof.
  revert d. induction xs as [|x xs IH]; intros d H; simpl.
  - rewrite app_nil_r. symmetry. apply py_tail_short. exact H.
  - rewrite IH by (apply length_deque_append; exact H).
    rewrite deque_append_tail by exact H.
    rewrite py_tail_py_tail_app, <- app_assoc. reflexivity.
Qed.

Lemma length_list_set (l : list A) (i : nat) (f : A -> A) :
  length (list_set l i f) = length l.
Proof.
  revert i. induction l as [|y ys IH]; intros [|j]; simpl; try rewrite IH; reflexivity.
Qed.

End Rings.

(** ** The alarm state machine *)

Module AlarmProps.
Import Alarm.
Local Open Scope string_scope.

(** The alert each level's branch of [trigger_alarm] appends. *)
Definition alert_of (l : AlarmLevel) : option (string * string) :=
  match l with
  | EMERGENCY => Some (msg_emergency, "emergency")
  | CRITICAL => Some (msg_critical, "critical")
  | WARNING => Some (msg_warning, "warning")
  | NONE => None
  end.

Definition prob_of (a : AnalysisView) : Q :=
  match view_probability a with Some p => p | None => 0 end.

(** All effects of one [trigger_alarm] call, branch by branch. *)
Lemma trigger_alarm_effects (now : Z) (a : AnalysisView) (s : AlarmSystem) :
  let l := level_of (prob_of a) in
  let s' := trigger_alarm now a s in
  alarm_state s' = l /\
  active_alerts s' =
    match alert_of l with
    | Some (m, t) => _add_alert now m t (active_alerts s)
    | None => active_alerts s
    end /\
  alarm_history s' =
    (if level_eqb (alarm_state s) l then alarm_history s
     else _log_state_change now (alarm_state s) l a (alarm_history s)) /\
  sounds s' =
    (if Nat.ltb (value (alarm_state s)) (value l)
     then (sounds s ++ [l])%list else sounds s).
Proof.
  unfold trigger_alarm, level_of, prob_of.
  destruct (py_gt _ 90); [|destruct (py_gt _ 80); [|destruct (py_gt _ 60)]];
    cbn -[_add_alert _log_state_change];
    repeat split; destruct (level_eqb _ _); reflexivity.
Qed.

(** [level_of] is the strict threshold lookup on the order of [Q]. *)
Lemma level_of_thresholds (p : Q) :
  level_of p =
    if Qlt_le_dec 90 p then EMERGENCY
    else if Qlt_le_dec 80 p then CRITICAL
    else if Qlt_le_dec 60 p then WARNING
    else NONE.
Proof.
  unfold level_of. rewrite !py_gt_spec.
  destruct (Qlt_le_dec 90 p); [reflexivity|].
  destruct (Qlt_le_dec 80 p); [reflexivity|].
  destruct (Qlt_le_dec 60 p); reflexivity.
Qed.

(** Claim C1 (as amended): every [trigger_alarm] call whose new level is
    above NONE (probability above 60) appends exactly the alert of that
    level, whatever the previous level; with a new level of NONE the ring is
    unchanged. The comparison with the previous level only gates the
    audible alert, which is dispatched iff the new level is strictly
    greater. *)
Theorem trigger_alarm_alert_per_level (now : Z) (a : AnalysisView)
    (s : AlarmSystem) :
  let l := level_of (prob_of a) in
  let s' := trigger_alarm now a s in
  active_alerts s' =
    match alert_of l with
    | Some (m, t) => list_append_trunc 20 (active_alerts s) (mkAlert now m t false)
    | None => active_alerts s
    end /\
  (alert_of l = None <-> l = NONE) /\
  sounds s' =
    (if Nat.ltb (value (alarm_state s)) (value l)
     then (sounds s ++ [l])%list else sounds s).
Proof.
  intros l s'. destruct (trigger_alarm_effects now a s) as [_ [Ha [_ Hs]]].
  split; [exact Ha|]. split; [|exact Hs].
  subst l. destruct (level_of (prob_of a)); split; easy.
Qed.

(** Claim C1, counterexample: from EMERGENCY (probability 95) a call with
    probability 65 lowers the level to WARNING and still appends an
    alert, the WARNING alert. *)
Lemma trigger_alarm_downgrade_appends_alert :
  let s1 := trigger_alarm 0 (mkView (Some 95) None) init in
  let s2 := trigger_alarm 1 (mkView (Some 65) None) s1 in
  alarm_state s1 = EMERGENCY /\ alarm_state s2 = WARNING /\
  (value (alarm_state s2) < value (alarm_state s1))%nat /\
  active_alerts s2 = (active_alerts s1 ++ [mkAlert 1 msg_warning "warning" false])%list /\
  length (alarm_history s2) = 2%nat.
Proof. vm_compute. repeat split; auto. Qed.

(** Claim C2 (as amended): [trigger_alarm] sets the state by the strict
    thresholds [> 90] EMERGENCY, [> 80] CRITICAL, [> 60] WARNING, else NONE,
    whatever the previous state; 90.0 is not above 90 but is above 80 and
    gives CRITICAL, and 90.1 gives EMERGENCY. *)
Theorem trigger_alarm_state_thresholds (now : Z) (a : AnalysisView)
    (s : AlarmSystem) :
  alarm_state (trigger_alarm now a s) =
    (if Qlt_le_dec 90 (prob_of a) then EMERGENCY
     else if Qlt_le_dec 80 (prob_of a) then CRITICAL
     else if Qlt_le_dec 60 (prob_of a) then WARNING
     else NONE) /\
  level_of 90 = CRITICAL /\ level_of (901 # 10) = EMERGENCY.
Proof.
  split; [|split; reflexivity].
  destruct (trigger_alarm_effects now a s) as [H _].
  rewrite H. apply level_of_thresholds.
Qed.

(** Claim C2, counterexample: probability 90.0 does not lead to WARNING. *)
Lemma trigger_alarm_90_not_warning :
  alarm_state (trigger_alarm 0 (mkView (Some 90) None) init) = CRITICAL /\
  CRITICAL <> WARNING.
Proof. split; [reflexivity | discriminate]. Qed.

(** One operation keeps the alert ring within 20 and the transition
    records within 100. *)
Lemma alarm_step_bounded (s : AlarmSystem) (o : Op) :
  (length (active_alerts s) <= 20)%nat -> (length (alarm_history s) <= 100)%nat ->
  (length (active_alerts (step s o)) <= 20)%nat /\
  (length (alarm_history (step s o)) <= 100)%nat.
Proof.
  assert (T : forall now a s, (length (active_alerts s) <= 20)%nat ->
            (length (alarm_history s) <= 100)%nat ->
            (length (active_alerts (trigger_alarm now a s)) <= 20)%nat /\
            (length (alarm_history (trigger_alarm now a s)) <= 100)%nat).
  { intros now a s0 H1 H2.
    destruct (trigger_alarm_effects now a s0) as [_ [Ha [Hh _]]].
    rewrite Ha, Hh. split.
    - destruct (alert_of _) as [[m t]|]; [apply length_list_append_trunc | exact H1].
    - destruct (level_eqb _ _); [exact H2 | apply length_list_append_trunc]. }
  intros H1 H2. destruct o as [now a|i|now|now|now]; unfold step.
  - apply T; assumption.
  - unfold acknowledge_alert. destruct (_ && _)%bool; simpl; [|split; assumption].
    rewrite length_list_set. split; assumption.
  - simpl. split; [lia | exact H2].
  - apply T; assumption.
  - simpl. split; [lia | exact H2].
Qed.

Lemma alarm_run_bounded (os : list Op) (s : AlarmSystem) :
  (length (active_alerts s) <= 20)%nat -> (length (alarm_history s) <= 100)%nat ->
  (length (active_alerts (run s os)) <= 20)%nat /\
  (length (alarm_history (run s os)) <= 100)%nat.
Proof.
  unfold run. revert s. induction os as [|o os IH]; intros s H1 H2; simpl.
  - split; assumption.
  - destruct (alarm_step_bounded s o H1 H2). apply IH; assumption.
Qed.

End AlarmProps.

(** ** The data logger's rings *)

Module LoggerRings.
Import Logger.

Definition bounded (s : DataLogger) : Prop :=
  (length (logs s) <= 1000)%nat /\ (length (events s) <= 500)%nat.

Definition outcome_state (o : Outcome) : DataLogger :=
  match o with Returned s => s | Blocked s => s end.

Lemma load_rings (fl : list LogEntry) (fe : list EventEntry) :
  logs (load fl fe) = py_tail 1000 fl /\ events (load fl fe) = py_tail 500 fe.
Proof.
  unfold load; simpl.
  rewrite !fold_deque_append by (simpl; lia). split; reflexivity.
Qed.

Lemma load_bounded (fl : list LogEntry) (fe : list EventEntry) :
  bounded (load fl fe).
Proof.
  unfold bounded. destruct (load_rings fl fe) as [H1 H2].
  rewrite H1, H2. split; apply length_py_tail.
Qed.

Lemma logger_step_bounded (s : DataLogger) (o : Op) :
  bounded s -> bounded (outcome_state (step s o)).
Proof.
  intros [H1 H2]. destruct o as [now d a|now e|now days]; unfold step.
  - unfold log_reading. destruct (py_gt _ 60); simpl;
      (split; [apply length_deque_append; exact H1 | exact H2]).
  - simpl. split; [exact H1 | apply length_deque_append; exact H2].
  - simpl. split; [apply length_py_tail | exact H2].
Qed.

Lemma logger_run_bounded (os : list Op) (s : DataLogger) :
  bounded s -> bounded (outcome_state (run s os)).
Proof.
  revert s. induction os as [|o os IH]; intros s H; simpl; [exact H|].
  pose proof (logger_step_bounded s o H) as H'.
  destruct (step s o); simpl in *; [apply IH|]; exact H'.
Qed.

End LoggerRings.

(** Claim C7: for every sequence of operations the four rings stay within
    their capacities (active alerts 20, state-transition records 100, log
    entries 1000, events 500), and appending evicts the oldest entries
    first: whatever sequence of entries is pushed into an empty ring, the
    survivors are exactly its last [capacity] entries, in order (for
    [capacity + 5] entries, all but the first five). *)
Theorem rings_bounded_fifo :
  (forall os : list Alarm.Op,
     (length (Alarm.active_alerts (Alarm.run Alarm.init os)) <= 20)%nat /\
     (length (Alarm.alarm_history (Alarm.run Alarm.init os)) <= 100)%nat) /\
  (forall fl fe (os : list Logger.Op),
     (length (Logger.logs (LoggerRings.outcome_state
                             (Logger.run (Logger.load fl fe) os))) <= 1000)%nat /\
     (length (Logger.events (LoggerRings.outcome_state
                               (Logger.run (Logger.load fl fe) os))) <= 500)%nat) /\
  (forall xs : list Alarm.Alert,
     fold_left (list_append_trunc 20) xs [] = skipn (length xs - 20) xs) /\
  (forall xs : list Alarm.StateChange,
     fold_left (list_append_trunc 100) xs [] = skipn (length xs - 100) xs) /\
  (forall xs : list Logger.LogEntry,
     fold_left (deque_append 1000) xs [] = skipn (length xs - 1000) xs) /\
  (forall xs : list Logger.EventEntry,
     fold_left (deque_append 500) xs [] = skipn (length xs - 500) xs) /\
  (forall fl fe,
     Logger.logs (Logger.load fl fe) = skipn (length fl - 1000) fl /\
     Logger.events (Logger.load fl fe) = skipn (length fe - 500) fe).
Proof.
  split; [|split; [|split; [|split; [|split; [|split]]]]].
  - intro os. apply AlarmProps.alarm_run_bounded; simpl; lia.
  - intros fl fe os. apply LoggerRings.logger_run_bounded, LoggerRings.load_bounded.
  - intro xs. rewrite fold_list_append_trunc by (simpl; lia). reflexivity.
  - intro xs. rewrite fold_list_append_trunc by (simpl; lia). reflexivity.
  - intro xs. rewrite fold_deque_append by (simpl; lia). reflexivity.
  - intro xs. rewrite fold_deque_append by (simpl; lia). reflexivity.
  - intros fl fe. apply LoggerRings.load_rings.
Qed.

(** ** The scoring engine *)

Module AnalyzerProps.
Import Analyzer.
Local Open Scope string_scope.
Local Open Scope list_scope.

Lemma normalize_sensor_some (sensor : string) (v : Q) :
  exists r, _normalize_sensor sensor v = Some r.
Proof.
  unfold _normalize_sensor, ranges, lookup.
  repeat (destruct (String.eqb sensor _); [|]); unfold py_div;
  repeat match goal with
         | |- context [Qeq_bool ?a ?b] =>
             let E := fresh in
             assert (E : Qeq_bool a b = false) by reflexivity; rewrite E
         end; simpl; eauto.
Qed.

Lemma weighted_sum_some (data : Snapshot) (ws : list (string * Q)) (sc tw : Q) :
  exists st, weighted_sum data ws sc tw = Some st.
Proof.
  revert sc tw. induction ws as [|[sensor weight] ws IH]; intros sc tw; simpl; eauto.
  destruct (lookup sensor data) as [v|]; [|apply IH].
  destruct (normalize_sensor_some sensor v) as [r Hr]. rewrite Hr. simpl. apply IH.
Qed.

Lemma base_probability_some (data : Snapshot) :
  exists b, base_probability data = Some b.
Proof.
  unfold base_probability.
  destruct (weighted_sum_some data evidence_weights 0 0) as [[score tw] H].
  rewrite H. simpl. destruct (py_gt tw 0) eqn:E; [|eauto].
  apply py_gt_true in E. unfold py_div.
  destruct (Qeq_bool tw 0) eqn:Z0.
  - apply Qeq_bool_eq in Z0. exfalso. lra.
  - simpl. eauto.
Qed.

Lemma calculate_probability_bounds (data : Snapshot) (hour : Z)
    (history : list Analysis) :
  exists p, _calculate_probability data hour history = Some p /\ 0 <= p <= 100.
Proof.
  unfold _calculate_probability.
  destruct (base_probability_some data) as [b Hb]. rewrite Hb. simpl.
  eexists. split; [reflexivity|]. apply py_clamp_bounds. lra.
Qed.

(** Every [data[k]] of [_gather_evidence] sits behind a [data.get(k, d)]
    test that fails on the default [d]: the key is present. *)
Lemma evidence_step_some (data : Snapshot) (k : string) (d : Q)
    (c : Q -> bool) (mk : Q -> Evidence) (acc : list Evidence) :
  c d = false ->
  exists e, evidence_step data (c (get data k d)) k mk acc = Some e.
Proof.
  intro Hd. unfold evidence_step, get, index.
  destruct (lookup k data) as [v|] eqn:E.
  - destruct (c v); simpl; eauto.
  - rewrite Hd. eauto.
Qed.

Ltac evidence_step_tac data k d c mk acc :=
  let e := fresh "e" in let He := fresh "He" in
  destruct (evidence_step_some data k d c mk acc eq_refl) as [e He];
  cbv beta in He; rewrite He; cbn [bind].

Lemma gather_evidence_some (data : Snapshot) :
  exists ev, _gather_evidence data = Some ev /\ (length ev <= 5)%nat.
Proof.
  unfold _gather_evidence.
  evidence_step_tac data "emf" 0%Q (fun v => py_gt v 50) EMFSpike (@nil Evidence).
  evidence_step_tac data "temperature" 72%Q (fun v => py_lt v 55) ColdSpot e.
  evidence_step_tac data "spectral" 0%Q (fun v => py_gt v 500) SpectralAnomaly e0.
  evidence_step_tac data "motion" 0%Q (fun v => py_gt v 50) MotionDetected e1.
  evidence_step_tac data "humidity" 45%Q (fun v => py_gt v 65) HumiditySurge e2.
  evidence_step_tac data "pressure" 1013%Q (fun v => py_lt v 995) PressureDrop e3.
  eexists. split; [reflexivity|]. rewrite length_firstn. lia.
Qed.

End AnalyzerProps.

Module ScoringClaims.
Import Analyzer AnalyzerProps.
Local Open Scope string_scope.
Local Open Scope list_scope.

Lemma calculate_confidence_bounds (data : Snapshot) (history : list Analysis)
    (r : Q) :
  5 <= r -> 5 <= _calculate_confidence data history r <= 100.
Proof.
  intro Hr. unfold _calculate_confidence.
  set (a := inject_Z (Z.of_nat (sensors_triggered data) * 15)).
  set (b := inject_Z (Z.of_nat (recent_detections history) * 8)).
  assert (Ha : 0 <= a) by (unfold a, Qle; simpl; lia).
  assert (Hb : 0 <= b) by (unfold b, Qle; simpl; lia).
  assert (Hs : 5 <= fold_left Qplus
                 ([a] ++ (if (5 <? length history)%nat then [b] else []) ++ [r]) 0).
  { destruct (5 <? length history)%nat; simpl; lra. }
  destruct (py_min_bounds 100
              (fold_left Qplus
                 ([a] ++ (if (5 <? length history)%nat then [b] else []) ++ [r]) 0))
    as [H1 [H2|H2]]; split; lra.
Qed.

(** Claim C3: for every snapshot, the empty one included, [analyze] raises
    no error (the weighted average divides only when some weight was
    accumulated) and returns a probability in [[0, 100]]; with no channel
    the base probability is 0. *)
Theorem analyze_total_probability_range (now hour : Z) (choice : nat) (r : Q)
    (data : Snapshot) (history : list Analysis) :
  match analyze now hour choice r data history with
  | Some (a, _) => 0 <= probability a <= 100
  | None => False
  end /\
  base_probability [] = Some 0 /\
  (exists a h, analyze now hour choice r [] history = Some (a, h)).
Proof.
  assert (Tot : forall d, exists a h, analyze now hour choice r d history = Some (a, h)
                   /\ 0 <= probability a <= 100).
  { intro d. unfold analyze.
    destruct (calculate_probability_bounds d hour history) as [p [Hp Hb]].
    rewrite Hp. cbn [bind].
    assert (R : 0 <= py_round1 p <= 100)
      by (apply (py_round1_bounds 0 100); exact Hb).
    destruct (py_gt p 40).
    - destruct (gather_evidence_some d) as [ev [He _]]. rewrite He. cbn [bind].
      do 2 eexists. split; [reflexivity|exact R].
    - cbn [bind]. do 2 eexists. split; [reflexivity|exact R]. }
  split; [|split].
  - destruct (Tot data) as [a [h [E R]]]. rewrite E. exact R.
  - reflexivity.
  - destruct (Tot []) as [a [h [E _]]]. eauto.
Qed.

(** Claim C4 (as amended): with [p] the probability [analyze] computes
    before rounding it to one decimal, a [p] above 40 sets the ghost-type
    label, a confidence of at least 5 and a non-empty recommendation list,
    and sets the evidence to the threshold-gated strings of
    [_gather_evidence] (possibly none); a [p] of at most 40 leaves the label
    None, the evidence and recommendations empty and the confidence 0. The
    evidence list never has more than 5 entries. *)
Theorem analyze_details_gate (now hour : Z) (choice : nat) (r : Q)
    (data : Snapshot) (history : list Analysis) (Hr : 5 <= r <= 15) :
  match _calculate_probability data hour history,
        analyze now hour choice r data history with
  | Some p, Some (a, _) =>
      probability a = py_round1 p /\ (length (evidence a) <= 5)%nat /\
      (if Qlt_le_dec 40 p then
         ghost_type a <> None /\ 5 <= confidence a /\ recommendations a <> [] /\
         Some (evidence a) = _gather_evidence data
       else
         ghost_type a = None /\ evidence a = [] /\ confidence a = 0 /\
         recommendations a = [])
  | _, _ => False
  end.
Proof.
  destruct (calculate_probability_bounds data hour history) as [p [Hp Hb]].
  unfold analyze. rewrite Hp. cbn [bind].
  rewrite py_gt_spec. destruct (Qlt_le_dec 40 p) as [G|G].
  - destruct (gather_evidence_some data) as [ev [He Hl]]. rewrite He. cbn [bind].
    simpl. split; [reflexivity|]. split; [exact Hl|].
    split; [discriminate|]. split.
    + apply (py_round1_bounds 5 100). apply calculate_confidence_bounds. lra.
    + split; [|reflexivity].
      unfold _generate_recommendations.
      destruct (py_gt _ 80); [discriminate|].
      destruct (py_gt _ 60); [discriminate|].
      destruct (py_gt _ 40); discriminate.
  - cbn [bind]. simpl. split; [reflexivity|]. split; [lia|].
    repeat split; reflexivity.
Qed.

(** Claim C4, counterexample: emf 45 alone at noon with no history gives a
    probability of 45, above 40, and a ghost type, but no evidence at all. *)
Lemma analyze_above_40_without_evidence :
  match analyze 0 12 0 10 [("emf", 45)] [] with
  | Some (a, _) => 40 < probability a /\ ghost_type a <> None /\ evidence a = []
  | None => False
  end.
Proof. vm_compute. split; [reflexivity|]. split; [discriminate|reflexivity]. Qed.

(** The gate of [analyze] reads the probability before rounding: emf 40.04
    gives a returned probability of exactly 40.0 and a populated ghost
    type. *)
Lemma analyze_gate_reads_unrounded :
  match analyze 0 12 0 10 [("emf", 4004 # 100)] [] with
  | Some (a, _) => probability a == 40 /\ ghost_type a <> None
  | None => False
  end.
Proof. vm_compute. split; [reflexivity|discriminate]. Qed.

Lemma hd_nth {A : Type} (l : list A) (d : A) : hd d l = nth 0 l d.
Proof. destruct l; reflexivity. Qed.

Lemma last_nth {A : Type} (l : list A) (d : A) :
  last l d = nth (length l - 1) l d.
Proof.
  induction l as [|x l IH]; [reflexivity|].
  destruct l as [|y l]; [reflexivity|].
  change (last (x :: y :: l) d) with (last (y :: l) d). rewrite IH.
  simpl. rewrite Nat.sub_0_r. reflexivity.
Qed.

(** Claim C5: the trend modifier is 0 below 10 history entries; otherwise,
    with [delta] the most recent stored probability minus the 10th most
    recent, it is 15 for [delta > 20], 8 for [10 < delta <= 20] and 0
    otherwise. *)
Theorem analyze_patterns_trend (history : list Analysis) :
  let n := length history in
  let ps := map probability history in
  _analyze_patterns history =
    if (n <? 10)%nat then 0
    else
      let delta := nth (n - 1) ps 0 - nth (n - 10) ps 0 in
      if Qlt_le_dec 20 delta then 15
      else if Qlt_le_dec 10 delta then 8
      else 0.
Proof.
  cbv zeta. unfold _analyze_patterns, py_tail. rewrite <- skipn_map.
  set (ps := map probability history).
  assert (Lps : length ps = length history) by apply length_map.
  set (n := length history) in *.
  destruct (n <? 10)%nat eqn:E; [reflexivity|]. apply Nat.ltb_ge in E.
  rewrite length_skipn, Lps.
  replace (n - (n - 10))%nat with 10%nat by lia. simpl Nat.ltb. cbv iota.
  rewrite last_nth, length_skipn, Lps, nth_skipn.
  replace (n - (n - 10) - 1)%nat with 9%nat by lia.
  replace (n - 10 + 9)%nat with (n - 1)%nat by lia.
  rewrite hd_nth.
  rewrite nth_skipn, Nat.add_0_r, !py_gt_spec.
  destruct (Qlt_le_dec 20 _); [reflexivity|].
  destruct (Qlt_le_dec 10 _); reflexivity.
Qed.

(** The confidence as the C6 claim words it: one point of 15 for each
    channel among emf > 60, temperature > 55, spectral > 500 and motion > 60
    past its threshold, 8 for each of the last 5 history entries with a
    probability above 50 whenever the history holds at least 5 entries, and
    the draw [r], clamped to [0, 100]. [confidence_amended] counts the
    history only when it holds more than 5 entries. *)
Definition over (data : Snapshot) (k : string) (thr : Q) : nat :=
  if py_gt (get data k 0) thr then 1 else 0.

Definition channels_over (data : Snapshot) : nat :=
  over data "emf" 60 + over data "temperature" 55 + over data "spectral" 500
  + over data "motion" 60.

Definition last5_over (history : list Analysis) : nat :=
  length (filter (fun e => py_gt (probability e) 50)
            (skipn (length history - 5) history)).

Definition confidence_as_claimed (data : Snapshot) (history : list Analysis)
    (r : Q) : Q :=
  py_clamp 0 100
    (inject_Z (Z.of_nat (channels_over data) * 15)
     + (if (5 <=? length history)%nat
        then inject_Z (Z.of_nat (last5_over history) * 8) else 0)
     + r).

Definition confidence_amended (data : Snapshot) (history : list Analysis)
    (r : Q) : Q :=
  py_clamp 0 100
    (inject_Z (Z.of_nat (channels_over data) * 15)
     + (if (5 <? length history)%nat
        then inject_Z (Z.of_nat (last5_over history) * 8) else 0)
     + r).

(** The history [analyze] leaves after [n] calls on the same snapshot at
    noon, with the draws 0 and 10. *)
Fixpoint analyze_repeat (n : nat) (data : Snapshot) (history : list Analysis)
    : list Analysis :=
  match n with
  | O => history
  | S n' =>
      match analyze 0 12 0 10 data history with
      | Some (_, h') => analyze_repeat n' data h'
      | None => history
      end
  end.

Lemma sensors_triggered_channels_over (data : Snapshot) :
  sensors_triggered data = channels_over data.
Proof.
  unfold sensors_triggered, channels_over, over, confidence_thresholds.
  cbn [filter fst snd].
  destruct (py_gt (get data "emf" 0) 60); destruct (py_gt (get data "temperature" 0) 55);
    destruct (py_gt (get data "spectral" 0) 500); destruct (py_gt (get data "motion" 0) 60);
    reflexivity.
Qed.

(** Claim C6 (as amended): for every snapshot, history and draw [r] of
    [random.uniform(5, 15)], [_calculate_confidence] is the triggered
    channels times 15, plus 8 for each of the last 5 history entries above
    50 only when the history holds more than 5 entries, plus [r], clamped
    to [0, 100]; the value lies in [5, 100]. *)
Theorem confidence_more_than_five_entries (data : Snapshot)
    (history : list Analysis) (r : Q) (Hr : 5 <= r <= 15) :
  _calculate_confidence data history r == confidence_amended data history r /\
  5 <= _calculate_confidence data history r <= 100.
Proof.
  split; [|apply calculate_confidence_bounds; lra].
  unfold _calculate_confidence, confidence_amended, py_clamp, recent_detections, py_tail.
  rewrite sensors_triggered_channels_over. fold (last5_over history).
  set (a := inject_Z (Z.of_nat (channels_over data) * 15)).
  set (b := inject_Z (Z.of_nat (last5_over history) * 8)).
  assert (Ha : 0 <= a) by (unfold a, Qle; simpl; lia).
  assert (Hb : 0 <= b) by (unfold b, Qle; simpl; lia).
  set (c := if (5 <? length history)%nat then b else 0).
  assert (Hc : 0 <= c) by (unfold c; destruct (5 <? length history)%nat; lra).
  set (x := fold_left Qplus
              ([a] ++ (if (5 <? length history)%nat then [b] else []) ++ [r]) 0).
  assert (X : x == a + c + r)
    by (unfold x, c; destruct (5 <? length history)%nat; simpl; ring).
  set (y := a + c + r).
  unfold py_max, py_min.
  destruct (py_lt x 100) eqn:E1; [apply py_lt_true in E1 | apply py_lt_false in E1];
  destruct (py_lt y 100) eqn:E2; [apply py_lt_true in E2 | apply py_lt_false in E2 | apply py_lt_true in E2 | apply py_lt_false in E2];
  match goal with |- context [py_gt ?u 0] => destruct (py_gt u 0) eqn:E3 end;
  first [apply py_gt_true in E3 | apply py_gt_false in E3]; unfold y in *; lra.
Qed.

(** Claim C6, counterexample: five [analyze] calls at noon on the reading
    emf 55 (probability 55 each), then a sixth. With exactly five history
    entries the code skips the history term ([len(self.history) > 5] is
    false): the confidence is 0 + 10 = 10, where the claim's sum is
    0 + 5 * 8 + 10 = 50. *)
Lemma confidence_ignores_five_entry_history :
  let data := [("emf", 55)] in
  let h := analyze_repeat 5 data [] in
  length h = 5%nat /\ Forall (fun e => probability e == 55) h /\
  match analyze 0 12 0 10 data h with
  | Some (a, _) =>
      confidence a == 10 /\ _calculate_confidence data h 10 == 10 /\
      confidence_as_claimed data h 10 == 50
  | None => False
  end.
Proof.
  vm_compute. split; [reflexivity|].
  split; [repeat constructor|]. split; [reflexivity|]. split; reflexivity.
Qed.

End ScoringClaims.

(** ** The history store's queries *)

Module LoggerClaims.
Import Analyzer Logger.
Local Open Scope string_scope.
Local Open Scope list_scope.

Lemma Qeq_bool_length_nonzero {A : Type} (x : A) (xs : list A) :
  Qeq_bool (inject_Z (Z.of_nat (length (x :: xs)))) 0 = false.
Proof.
  destruct (Qeq_bool _ 0) eqn:E; [|reflexivity].
  apply Qeq_bool_eq in E. unfold Qeq in E. simpl in E. lia.
Qed.

(** Claim C8: when no log entry is inside the trailing window,
    [generate_report] returns the explicit no-data result; when at least
    one is, it returns a report with the count, the rounded mean, the
    maximum and minimum probability, the detections above 50, the
    ghost-type breakdown and the most active hour of those entries. *)
Theorem generate_report_window (now hours : Z) (s : DataLogger) :
  match filter (in_window now hours) (logs s) with
  | [] => generate_report now hours s = Some NoData
  | recent =>
      let probs := map (fun l => probability (log_analysis l)) recent in
      let detections :=
        filter (fun l => py_gt (probability (log_analysis l)) 50) recent in
      exists r, generate_report now hours s = Some (ReportOk r) /\
        total_readings r = length recent /\
        avg_activity r =
          py_round1 (fold_left Qplus probs 0 / inject_Z (Z.of_nat (length probs))) /\
        max_probability r = list_max probs /\
        min_probability r = list_min probs /\
        total_detections r = length detections /\
        ghost_type_breakdown r = type_breakdown detections /\
        most_active_hour r = _get_most_active_hour recent
  end.
Proof.
  unfold generate_report.
  destruct (filter (in_window now hours) (logs s)) as [|x xs] eqn:E;
    [reflexivity|].
  cbv zeta. cbn [map]. unfold py_div.
  rewrite <- (length_map (fun l => probability (log_analysis l)) (x :: xs)).
  rewrite Qeq_bool_length_nonzero. cbn [bind].
  eexists. split; [reflexivity|].
  repeat split; reflexivity.
Qed.

Definition has_type (t : string) (e : EventEntry) : bool :=
  match ed_type (event_data e) with
  | Some t' => String.eqb t' t
  | None => false
  end.

Definition significant (ts : Z) : EventEntry :=
  mkEventEntry ts "significant_detection"
    (mkEventData (Some "significant_detection") (Some ts) (Some 70) None []).

(** An event logged from a dict without a ['type'] key. *)
Definition untyped (ts : Z) : EventEntry :=
  mkEventEntry ts "info" (mkEventData None (Some ts) None None []).

Lemma filter_has_type_untyped (t : string) (n : nat) :
  filter (has_type t) (repeat (untyped 0) n) = [].
Proof. induction n as [|n IH]; [reflexivity|]. simpl. exact IH. Qed.

Lemma get_events_filter (t : string) (limit : Z) (s : DataLogger) :
  t <> "" ->
  get_events (Some t) limit s = filter (has_type t) (py_slice_last limit (events s)).
Proof.
  intro Ht. unfold get_events.
  destruct (String.eqb t "") eqn:E; [apply String.eqb_eq in E; contradiction|].
  reflexivity.
Qed.

(** Claim C10 (as amended): for a non-empty requested type, [get_events]
    first cuts the ring with the slice [[-limit:]] and then filters by
    type. For every [limit] from 1 to 499 some ring within the deque's
    capacity of 500 holds a matching event that the call leaves out while
    it returns fewer than [limit] events; for [limit >= 500] a ring within
    capacity is never cut, and every matching event comes back. For
    [limit = 0] the slice [[-0:]] is the whole ring, and a negative limit
    drops the first [-limit] events. *)
Theorem get_events_truncates_then_filters (t : string) (limit : Z)
    (s : DataLogger) (Ht : t <> "") :
  get_events (Some t) limit s =
    filter (has_type t)
      (if (limit =? 0)%Z then events s
       else if (0 <? limit)%Z then
         skipn (length (events s) - Z.to_nat limit) (events s)
       else skipn (Z.to_nat (- limit)) (events s)) /\
  ((1 <= limit < 500)%Z ->
   exists s' : DataLogger,
     (length (events s') <= 500)%nat /\
     (length (get_events (Some t) limit s') < Z.to_nat limit)%nat /\
     exists e, In e (events s') /\ has_type t e = true /\
               ~ In e (get_events (Some t) limit s')) /\
  ((500 <= limit)%Z -> (length (events s) <= 500)%nat ->
   get_events (Some t) limit s = filter (has_type t) (events s)).
Proof.
  split; [|split].
  - rewrite (get_events_filter t limit s Ht). unfold py_slice_last.
    destruct (limit =? 0)%Z eqn:L0.
    + apply Z.eqb_eq in L0. subst limit. reflexivity.
    + destruct (limit <=? 0)%Z eqn:L1.
      * destruct (0 <? limit)%Z eqn:L2; [lia|reflexivity].
      * destruct (0 <? limit)%Z eqn:L2; [reflexivity|lia].
  - intro Hl.
    set (e := mkEventEntry 0%Z t (mkEventData (Some t) (Some 0%Z) None None [])).
    exists (mkLogger [] (e :: repeat (untyped 0) (Z.to_nat limit))).
    assert (G : get_events (Some t) limit
                  (mkLogger [] (e :: repeat (untyped 0) (Z.to_nat limit))) = []).
    { rewrite (get_events_filter t limit _ Ht). unfold py_slice_last. cbn [events].
      replace (limit <=? 0)%Z with false by (symmetry; apply Z.leb_gt; lia).
      rewrite length_cons, repeat_length.
      replace (S (Z.to_nat limit) - Z.to_nat limit)%nat with 1%nat by lia.
      apply filter_has_type_untyped. }
    rewrite G. cbn [events length]. rewrite repeat_length.
    split; [lia|]. split; [simpl; lia|].
    exists e. split; [left; reflexivity|]. split; [|intros []].
    unfold has_type. simpl. apply String.eqb_refl.
  - intros Hl Hs. rewrite (get_events_filter t limit s Ht). unfold py_slice_last.
    replace (limit <=? 0)%Z with false by (symmetry; apply Z.leb_gt; lia).
    replace (length (events s) - Z.to_nat limit)%nat with 0%nat by lia.
    reflexivity.
Qed.
(** Claim C10, counterexample: with [limit = 0] the call returns the
    matching event of the ring instead of nothing. *)
Lemma get_events_limit_zero_whole_ring :
  get_events (Some "significant_detection") 0
    (mkLogger [] [significant 5]) = [significant 5].
Proof. reflexivity. Qed.

End LoggerClaims.

Module HourClaims.
Import Analyzer Logger.
Local Open Scope list_scope.

(** The hours of a list of hours, each once, in the order of their first
    occurrence: the insertion order of the keys of [hour_count]. *)
Definition keys_first (hs : list Z) : list Z :=
  fold_left (fun acc h => if existsb (Z.eqb h) acc then acc else acc ++ [h]) hs [].

Definition hours (ls : list LogEntry) : list Z :=
  map (fun l => hour_of (log_timestamp l)) ls.

Definition cnt (hs : list Z) (h : Z) : nat := count_occ Z.eq_dec hs h.

Lemma existsb_Zeqb (h : Z) (l : list Z) : existsb (Z.eqb h) l = true <-> In h l.
Proof.
  rewrite existsb_exists. split.
  - intros [x [Hx E]]. apply Z.eqb_eq in E. subst. exact Hx.
  - intro H. exists h. split; [exact H | apply Z.eqb_refl].
Qed.

Lemma keys_first_snoc (hs : list Z) (h : Z) :
  keys_first (hs ++ [h]) =
    if existsb (Z.eqb h) (keys_first hs) then keys_first hs
    else keys_first hs ++ [h].
Proof. unfold keys_first. rewrite fold_left_app. reflexivity. Qed.

Lemma keys_first_In_NoDup (hs : list Z) :
  (forall k, In k (keys_first hs) <-> In k hs) /\ NoDup (keys_first hs).
Proof.
  induction hs as [|h hs IH] using rev_ind.
  - split; [intro k; simpl; tauto | constructor].
  - destruct IH as [IHin IHnd]. rewrite keys_first_snoc.
    destruct (existsb (Z.eqb h) (keys_first hs)) eqn:E.
    + apply existsb_Zeqb in E. split; [|exact IHnd].
      intro k. rewrite IHin, in_app_iff. simpl.
      split; [tauto|]. intros [H|[H|[]]]; [exact H|]. subst. apply IHin. exact E.
    + split.
      * intro k. rewrite !in_app_iff, IHin. reflexivity.
      * apply NoDup_app; [exact IHnd | repeat constructor; simpl; tauto |].
        intros a Ha [Hb|[]]. subst. rewrite <- existsb_Zeqb, E in Ha. discriminate.
Qed.

Lemma dict_incr_map (ks : list Z) (c : Z -> nat) (h : Z) :
  NoDup ks ->
  dict_incr Z.eqb h (map (fun k => (k, c k)) ks) =
    if existsb (Z.eqb h) ks
    then map (fun k => (k, if Z.eqb h k then S (c k) else c k)) ks
    else map (fun k => (k, c k)) ks ++ [(h, 1%nat)].
Proof.
  induction ks as [|k ks IH]; intro Hnd; [reflexivity|].
  apply NoDup_cons_iff in Hnd as [Hk Hnd]. simpl.
  destruct (Z.eqb h k) eqn:E; simpl.
  - apply Z.eqb_eq in E. subst k. f_equal. apply map_ext_in.
    intros a Ha. destruct (Z.eqb h a) eqn:E'; [|reflexivity].
    apply Z.eqb_eq in E'. subst. contradiction.
  - rewrite IH by exact Hnd. destruct (existsb (Z.eqb h) ks); reflexivity.
Qed.

Lemma cnt_snoc (hs : list Z) (h k : Z) :
  cnt (hs ++ [h]) k = (if Z.eqb h k then S (cnt hs k) else cnt hs k).
Proof.
  unfold cnt. rewrite count_occ_app. simpl.
  destruct (Z.eqb_spec h k) as [->|Hne].
  - destruct (Z.eq_dec k k); [lia|contradiction].
  - destruct (Z.eq_dec h k); [contradiction|lia].
Qed.

(** [hour_count] as built by the loop: each hour with its number of
    readings, in first-occurrence order. *)
Lemma fold_dict_incr (hs : list Z) :
  fold_left (fun d h => dict_incr Z.eqb h d) hs [] =
    map (fun k => (k, cnt hs k)) (keys_first hs).
Proof.
  induction hs as [|h hs IH] using rev_ind; [reflexivity|].
  destruct (keys_first_In_NoDup hs) as [Hin Hnd].
  rewrite fold_left_app. simpl. rewrite IH, dict_incr_map by exact Hnd.
  rewrite keys_first_snoc.
  destruct (existsb (Z.eqb h) (keys_first hs)) eqn:E.
  - apply map_ext_in. intros a _. rewrite cnt_snoc. reflexivity.
  - rewrite map_app. simpl. f_equal.
    + apply map_ext_in. intros a Ha. rewrite cnt_snoc.
      destruct (Z.eqb h a) eqn:E'; [|reflexivity].
      apply Z.eqb_eq in E'. subst. rewrite <- existsb_Zeqb, E in Ha. discriminate.
    + rewrite cnt_snoc, Z.eqb_refl. unfold cnt.
      rewrite (proj1 (count_occ_not_In Z.eq_dec hs h)); [reflexivity|].
      rewrite <- Hin, <- existsb_Zeqb, E. discriminate.
Qed.

Lemma hour_counts_spec (ls : list LogEntry) :
  hour_counts ls = map (fun k => (k, cnt (hours ls) k)) (keys_first (hours ls)).
Proof.
  rewrite <- fold_dict_incr. unfold hour_counts, hours.
  generalize (@nil (Z * nat)). induction ls as [|l ls IH]; intro d; [reflexivity|].
  simpl. apply IH.
Qed.

Section MaxBy.
Context {K : Type}.

Definition max_step (m y : K * nat) : K * nat :=
  if (snd m <? snd y)%nat then y else m.

Lemma fold_max_step (xs pre mid : list (K * nat)) (m : K * nat) :
  Forall (fun y => (snd y < snd m)%nat) pre ->
  Forall (fun y => (snd y <= snd m)%nat) mid ->
  exists pre' post',
    pre ++ m :: mid ++ xs = pre' ++ fold_left max_step xs m :: post' /\
    Forall (fun y => (snd y < snd (fold_left max_step xs m))%nat) pre' /\
    Forall (fun y => (snd y <= snd (fold_left max_step xs m))%nat) post'.
Proof.
  revert pre mid m. induction xs as [|y xs IH]; intros pre mid m Hpre Hmid; simpl.
  - exists pre, mid. rewrite app_nil_r. auto.
  - destruct (snd m <? snd y)%nat eqn:E.
    + assert (Hm : max_step m y = y) by (unfold max_step; rewrite E; reflexivity).
      rewrite Hm. apply Nat.ltb_lt in E.
      destruct (IH (pre ++ m :: mid) [] y) as [pre' [post' [Heq [H1 H2]]]].
      * apply Forall_app. split.
        -- eapply Forall_impl; [|exact Hpre]. simpl. intros a Ha. lia.
        -- constructor; [exact E|]. eapply Forall_impl; [|exact Hmid].
           simpl. intros a Ha. lia.
      * constructor.
      * exists pre', post'. split; [|auto]. rewrite <- Heq.
        rewrite <- app_assoc. reflexivity.
    + assert (Hm : max_step m y = m) by (unfold max_step; rewrite E; reflexivity).
      rewrite Hm. apply Nat.ltb_ge in E.
      destruct (IH pre (mid ++ [y]) m Hpre) as [pre' [post' [Heq [H1 H2]]]].
      * apply Forall_app. split; [exact Hmid|]. constructor; [exact E|constructor].
      * exists pre', post'. split; [|auto]. rewrite <- Heq.
        rewrite <- app_assoc. reflexivity.
Qed.

(** [max(items, key=...)] returns the first item of greatest count. *)
Lemma max_by_count_first (x : K * nat) (xs : list (K * nat)) :
  exists pre post r,
    max_by_count (x :: xs) = Some r /\ x :: xs = pre ++ r :: post /\
    Forall (fun y => (snd y < snd r)%nat) pre /\
    Forall (fun y => (snd y <= snd r)%nat) post.
Proof.
  destruct (fold_max_step xs [] [] x (Forall_nil _) (Forall_nil _))
    as [pre [post [Heq [H1 H2]]]].
  exists pre, post, (fold_left max_step xs x). split; [reflexivity|]. auto.
Qed.

End MaxBy.

Lemma in_counts (hs : list Z) (h : Z) :
  In h hs -> In (h, cnt hs h) (map (fun k => (k, cnt hs k)) (keys_first hs)).
Proof.
  intro H. apply (in_map (fun k => (k, cnt hs k))).
  apply (proj1 (keys_first_In_NoDup hs)). exact H.
Qed.

Lemma counts_in (hs : list Z) (h : Z) (c : nat) :
  In (h, c) (map (fun k => (k, cnt hs k)) (keys_first hs)) ->
  In h hs /\ c = cnt hs h.
Proof.
  intro H. apply in_map_iff in H as [k [E Hk]]. injection E as <- <-.
  split; [apply (proj1 (keys_first_In_NoDup hs)); exact Hk | reflexivity].
Qed.

Lemma hour_of_range (t : Z) : (0 <= hour_of t <= 23)%Z.
Proof. unfold hour_of. pose proof (Z.mod_pos_bound (t / 3600) 24). lia. Qed.

(** Claim C9 (as amended): for a non-empty list of in-window log entries,
    the most active hour is an hour of day (0-23) whose reading count is
    the maximum; among hours tied at that maximum it is the one whose first
    reading comes first in the list (the first key of the insertion-ordered
    count dict), not necessarily the lowest hour number. *)
Theorem most_active_hour_first_seen (ls : list LogEntry) :
  match ls with
  | [] => _get_most_active_hour ls = Unknown
  | _ :: _ =>
      exists h c pre post,
        _get_most_active_hour ls = HourRange h c /\
        (0 <= h <= 23)%Z /\ c = cnt (hours ls) h /\
        (forall h', (cnt (hours ls) h' <= c)%nat) /\
        keys_first (hours ls) = pre ++ h :: post /\
        (forall h', cnt (hours ls) h' = c -> h' = h \/ In h' post)
  end.
Proof.
  destruct ls as [|l0 ls0] eqn:Els; [reflexivity|]. rewrite <- Els.
  unfold _get_most_active_hour. rewrite hour_counts_spec.
  set (hs := hours ls).
  assert (Hl0 : In (hour_of (log_timestamp l0)) hs).
  { unfold hs, hours. rewrite Els. left. reflexivity. }
  set (items := map (fun k => (k, cnt hs k)) (keys_first hs)).
  assert (Hne : items <> []).
  { intro E. pose proof (in_counts hs _ Hl0) as H. fold items in H.
    rewrite E in H. exact H. }
  destruct items as [|x xs] eqn:EI; [contradiction|].
  destruct (max_by_count_first x xs) as [pre [post [[h c] [Hr [Hsplit [Hpre Hpost]]]]]].
  rewrite Hr. rewrite <- EI in Hsplit.
  assert (Hhc : In (h, c) items).
  { rewrite Hsplit. apply in_or_app. right. left. reflexivity. }
  destruct (counts_in hs h c Hhc) as [Hh Hc].
  assert (Where : forall h', In h' hs ->
            In (h', cnt hs h') pre \/ (h', cnt hs h') = (h, c) \/ In (h', cnt hs h') post).
  { intros h' Hin. pose proof (in_counts hs h' Hin) as H. fold items in H.
    rewrite Hsplit in H. apply in_app_iff in H as [H|[H|H]]; auto. }
  exists h, c, (map fst pre), (map fst post).
  split; [reflexivity|]. split.
  { unfold hs, hours in Hh. apply in_map_iff in Hh as [l [<- _]].
    apply hour_of_range. }
  split; [exact Hc|]. split.
  { intro h'. destruct (in_dec Z.eq_dec h' hs) as [Hin|Hin].
    - destruct (Where h' Hin) as [H|[H|H]].
      + apply (proj1 (Forall_forall _ _) Hpre) in H. simpl in H. lia.
      + injection H as _ ->. lia.
      + apply (proj1 (Forall_forall _ _) Hpost) in H. simpl in H. exact H.
    - unfold cnt. rewrite (proj1 (count_occ_not_In Z.eq_dec hs h') Hin). lia. }
  split.
  { assert (K : keys_first hs = map fst items).
    { unfold items. rewrite map_map. simpl. symmetry. apply map_id. }
    rewrite K, Hsplit, map_app. reflexivity. }
  intros h' Hc'.
  assert (Hin : In h' hs).
  { destruct (in_dec Z.eq_dec h' hs) as [Hin|Hin]; [exact Hin|].
    exfalso. unfold cnt in Hc, Hc'.
    rewrite (proj1 (count_occ_not_In Z.eq_dec hs h') Hin) in Hc'.
    apply (count_occ_In Z.eq_dec) in Hh. lia. }
  destruct (Where h' Hin) as [H|[H|H]].
  - apply (proj1 (Forall_forall _ _) Hpre) in H. simpl in H. lia.
  - injection H as -> _. left. reflexivity.
  - right. rewrite Hc' in H. apply (in_map fst) in H. exact H.
Qed.

(** A log entry at second [t] of the local day count. *)
Definition entry_at (t : Z) : LogEntry :=
  mkLogEntry t [] (mkAnalysis t 70 None [] 0 "High" []).

(** Claim C9, counterexample: one reading at 23:00 and one at 01:00 the
    next day tie at one reading each; the report names hour 23, not the
    lower hour 1. *)
Lemma most_active_hour_tie_not_lowest :
  let ls := [entry_at (23 * 3600); entry_at (25 * 3600)] in
  _get_most_active_hour ls = HourRange 23 1 /\
  cnt (hours ls) 1 = 1%nat /\ (1 < 23)%Z.
Proof. vm_compute. repeat split; reflexivity. Qed.

End HourClaims.

(** ** Further properties of the code *)

Module AlarmExtra.
Import Alarm AlarmProps.
Local Open Scope string_scope.
Local Open Scope list_scope.

(** The alert [acknowledge_alert] writes back. *)
Definition acked (a : Alert) : Alert :=
  mkAlert (alert_timestamp a) (alert_message a) (alert_type a) true.

Definition unacked (a : Alert) : bool := negb (alert_acknowledged a).

Lemma nth_error_list_set {A : Type} (l : list A) (i j : nat) (f : A -> A) :
  nth_error (list_set l i f) j =
    if Nat.eqb j i then option_map f (nth_error l j) else nth_error l j.
Proof.
  revert i j. induction l as [|y ys IH]; intros [|i] [|j]; simpl; try reflexivity.
  - destruct (Nat.eqb j i); reflexivity.
  - apply IH.
Qed.

Lemma count_unacked_list_set (l : list Alert) (i : nat) (a : Alert) :
  nth_error l i = Some a ->
  (length (filter unacked (list_set l i acked)) + (if unacked a then 1 else 0) =
   length (filter unacked l))%nat.
Proof.
  revert i. induction l as [|y ys IH]; intros [|i] H; simpl in *; try discriminate.
  - injection H as <-. unfold unacked; simpl.
    destruct (alert_acknowledged y); simpl; lia.
  - specialize (IH i H). unfold unacked in *. simpl.
    destruct (alert_acknowledged y); simpl; lia.
Qed.

Lemma list_set_acked_id (l : list Alert) (i : nat) (a : Alert) :
  nth_error l i = Some a -> alert_acknowledged a = true -> list_set l i acked = l.
Proof.
  revert i. induction l as [|y ys IH]; intros [|i] H Ha; simpl in *; try discriminate.
  - injection H as <-. destruct y; simpl in *; subst; reflexivity.
  - rewrite (IH i H Ha). reflexivity.
Qed.

(** [acknowledge_alert(i)] returns True exactly for an index in
    [[0, len(active_alerts))]; then it marks that one alert acknowledged
    and changes nothing else, and otherwise it changes nothing at all. *)
Theorem acknowledge_alert_marks_only_index (i : Z) (s : AlarmSystem) :
  let '(s', ok) := acknowledge_alert i s in
  (ok = true <-> (0 <= i < Z.of_nat (length (active_alerts s)))%Z) /\
  (ok = false -> s' = s) /\
  alarm_state s' = alarm_state s /\ alarm_history s' = alarm_history s /\
  running s' = running s /\ sounds s' = sounds s /\
  length (active_alerts s') = length (active_alerts s) /\
  (forall j : nat, nth_error (active_alerts s') j =
     if ok && Nat.eqb j (Z.to_nat i)
     then option_map acked (nth_error (active_alerts s) j)
     else nth_error (active_alerts s) j).
Proof.
  unfold acknowledge_alert.
  destruct ((0 <=? i) && (i <? Z.of_nat (length (active_alerts s))))%Z eqn:E.
  - apply andb_true_iff in E. destruct E as [E1 E2].
    apply Z.leb_le in E1. apply Z.ltb_lt in E2. simpl.
    split; [split; [intros _; lia | reflexivity]|].
    split; [discriminate|].
    do 4 (split; [reflexivity|]). split; [apply length_list_set|].
    intro j. apply nth_error_list_set.
  - split.
    + split; [discriminate|]. intros [H1 H2].
      apply Z.leb_le in H1. apply Z.ltb_lt in H2. rewrite H1, H2 in E. discriminate.
    + split; [reflexivity|]. repeat split.
Qed.

(** Acknowledging the alert at a valid index returns True; if that alert
    was unacknowledged, the [unacknowledged] count of [get_status] (the
    length of [get_alerts()]) drops by exactly one, and if it was already
    acknowledged the system is left unchanged. *)
Theorem acknowledge_alert_status_count (i : nat) (a : Alert) (s : AlarmSystem)
    (Hi : nth_error (active_alerts s) i = Some a) :
  let '(s', ok) := acknowledge_alert (Z.of_nat i) s in
  ok = true /\
  active_count (get_status s') = active_count (get_status s) /\
  unacknowledged (get_status s') = length (get_alerts false s') /\
  (if alert_acknowledged a then s' = s
   else S (unacknowledged (get_status s')) = unacknowledged (get_status s)).
Proof.
  assert (Hlt : (i < length (active_alerts s))%nat)
    by (apply nth_error_Some; rewrite Hi; discriminate).
  unfold acknowledge_alert.
  replace ((0 <=? Z.of_nat i) && (Z.of_nat i <? Z.of_nat (length (active_alerts s))))%Z
    with true by (symmetry; apply andb_true_iff; split; [apply Z.leb_le | apply Z.ltb_lt]; lia).
  rewrite Nat2Z.id. unfold get_status, get_alerts; simpl.
  change (fun a0 : Alert => mkAlert (alert_timestamp a0) (alert_message a0)
                               (alert_type a0) true) with acked.
  split; [reflexivity|]. split; [apply length_list_set|]. split; [reflexivity|].
  pose proof (count_unacked_list_set (active_alerts s) i a Hi) as C.
  fold unacked. unfold unacked in C |- *.
  destruct (alert_acknowledged a) eqn:Ha.
  - rewrite (list_set_acked_id _ i a Hi Ha). destruct s; reflexivity.
  - simpl in C. lia.
Qed.

(** [clear_alarms] sets the level to NONE and leaves exactly one
    unacknowledged info alert, without recording a transition or touching
    the history; [shutdown] does the same and stops the system. A
    [trigger_alarm] after it compares against NONE: any level above NONE
    then records a transition from NONE and dispatches its sound. *)
Theorem clear_alarms_resets (now now' : Z) (a : AnalysisView) (s : AlarmSystem) :
  let c := clear_alarms now s in
  let l := level_of (prob_of a) in
  let t := trigger_alarm now' a c in
  alarm_state c = NONE /\
  active_alerts c = [mkAlert now msg_cleared "info" false] /\
  alarm_history c = alarm_history s /\ sounds c = sounds s /\
  active_count (get_status c) = 1%nat /\ unacknowledged (get_status c) = 1%nat /\
  alarm_state (shutdown now s) = NONE /\
  active_alerts (shutdown now s) = active_alerts c /\
  alarm_history (shutdown now s) = alarm_history s /\
  running (shutdown now s) = false /\
  alarm_history t = (match l with
                     | NONE => alarm_history s
                     | _ => _log_state_change now' NONE l a (alarm_history s)
                     end) /\
  sounds t = (match l with NONE => sounds s | _ => sounds s ++ [l] end).
Proof.
  intros c l t.
  destruct (trigger_alarm_effects now' a c) as [_ [_ [Hh Hs]]].
  fold l in Hh, Hs. fold t in Hh, Hs.
  do 10 (split; [reflexivity|]). rewrite Hh, Hs. simpl.
  destruct l; split; reflexivity.
Qed.

(** Two [trigger_alarm] calls at the same level in a row: the second one
    records no transition and dispatches no sound, but still appends the
    level's alert. So [simulate_emergency] twice records at most one
    transition. *)
Theorem trigger_alarm_repeat_same_level (now1 now2 : Z) (a1 a2 : AnalysisView)
    (s : AlarmSystem) (H : level_of (prob_of a1) = level_of (prob_of a2)) :
  let s1 := trigger_alarm now1 a1 s in
  let s2 := trigger_alarm now2 a2 s1 in
  alarm_state s2 = alarm_state s1 /\
  alarm_history s2 = alarm_history s1 /\ sounds s2 = sounds s1 /\
  active_alerts s2 =
    match alert_of (level_of (prob_of a2)) with
    | Some (m, t) => _add_alert now2 m t (active_alerts s1)
    | None => active_alerts s1
    end.
Proof.
  intros s1 s2.
  destruct (trigger_alarm_effects now1 a1 s) as [E1 _].
  destruct (trigger_alarm_effects now2 a2 s1) as [E2 [Ha [Hh Hs]]].
  fold s1 in E1. fold s1 s2 in E2, Ha, Hh, Hs.
  rewrite E1, H in *. rewrite E2.
  assert (Q1 : level_eqb (level_of (prob_of a2)) (level_of (prob_of a2)) = true)
    by (unfold level_eqb; apply Nat.eqb_refl).
  assert (Q2 : Nat.ltb (value (level_of (prob_of a2))) (value (level_of (prob_of a2))) = false)
    by apply Nat.ltb_irrefl.
  rewrite Q1 in Hh. rewrite Q2 in Hs. repeat split; assumption.
Qed.

(** [simulate_emergency] from any state: the level becomes EMERGENCY and
    the emergency alert is appended; a transition record (probability 95,
    Poltergeist) and the sound come only when the level was not already
    EMERGENCY. *)
Theorem simulate_emergency_effects (now : Z) (s : AlarmSystem) :
  let s' := simulate_emergency now s in
  alarm_state s' = EMERGENCY /\
  active_alerts s' = _add_alert now msg_emergency "emergency" (active_alerts s) /\
  alarm_history s' =
    match alarm_state s with
    | EMERGENCY => alarm_history s
    | prev => _log_state_change now prev EMERGENCY
                (mkView (Some 95%Q) (Some "Poltergeist")) (alarm_history s)
    end /\
  sounds s' =
    match alarm_state s with
    | EMERGENCY => sounds s
    | _ => sounds s ++ [EMERGENCY]
    end.
Proof.
  intro s'. unfold s', simulate_emergency.
  destruct (trigger_alarm_effects now (mkView (Some 95%Q) (Some "Poltergeist")) s)
    as [E [Ha [Hh Hs]]].
  assert (L : level_of (prob_of (mkView (Some 95%Q) (Some "Poltergeist"))) = EMERGENCY)
    by reflexivity.
  rewrite L in E, Ha, Hh, Hs. rewrite E, Ha, Hh, Hs. simpl.
  split; [reflexivity|]. split; [reflexivity|].
  destruct (alarm_state s); split; reflexivity.
Qed.

End AlarmExtra.

Module AnalyzerExtra.
Import Analyzer.
Local Open Scope string_scope.
Local Open Scope list_scope.

Lemma py_min_le_r (a b : Q) : py_min a b <= b.
Proof. unfold py_min. destruct (py_lt b a) eqn:E; [lra|apply py_lt_false in E; exact E]. Qed.

Lemma py_max_ge_r (a b : Q) : b <= py_max a b.
Proof. unfold py_max. destruct (py_gt b a) eqn:E; [lra|apply py_gt_false in E; exact E]. Qed.

Lemma py_clamp_mono (lo hi x y : Q) :
  x <= y -> py_max lo (py_min hi x) <= py_max lo (py_min hi y).
Proof.
  intro Hxy.
  destruct (py_min_bounds hi x) as [Ax [Bx|Bx]];
  destruct (py_min_bounds hi y) as [Ay [By|By]];
  pose proof (py_min_le_r hi x); pose proof (py_min_le_r hi y);
  destruct (py_max_bounds lo (py_min hi x)) as [Cx [Dx|Dx]];
  destruct (py_max_bounds lo (py_min hi y)) as [Cy [Dy|Dy]];
  pose proof (py_max_ge_r lo (py_min hi x)); pose proof (py_max_ge_r lo (py_min hi y));
  lra.
Qed.

Lemma Qdiv_le_mono (a b c : Q) : 0 < c -> a <= b -> a / c <= b / c.
Proof.
  intros Hc H. unfold Qdiv. apply Qmult_le_compat_r; [exact H|].
  apply Qlt_le_weak, Qinv_lt_0_compat, Hc.
Qed.

Lemma ranges_spec (sensor : string) (lo hi : Q) :
  lookup sensor ranges = Some (lo, hi) -> lo < hi.
Proof.
  unfold ranges, lookup.
  repeat (destruct (String.eqb sensor _); [intro H; injection H as <- <-; lra|]).
  discriminate.
Qed.

(** [_normalize_sensor] always returns a value in [[0, 1]] (no division by
    zero: every range is non-empty); a name without a range gives 0. The
    map is monotone in the reading, decreasing for temperature (colder is
    more suspicious) and increasing for the other five channels. *)
Theorem normalize_sensor_range_direction (sensor : string) (v w : Q)
    (Hvw : v <= w) :
  match _normalize_sensor sensor v, _normalize_sensor sensor w with
  | Some x, Some y =>
      0 <= x <= 1 /\ 0 <= y <= 1 /\
      match lookup sensor ranges with
      | Some _ => if String.eqb sensor "temperature" then y <= x else x <= y
      | None => x = 0 /\ y = 0
      end
  | _, _ => False
  end.
Proof.
  unfold _normalize_sensor.
  destruct (lookup sensor ranges) as [[lo hi]|] eqn:L.
  - pose proof (ranges_spec sensor lo hi L) as Hlh.
    unfold py_div. replace (Qeq_bool (hi - lo) 0) with false
      by (symmetry; apply not_true_iff_false; intro E; apply Qeq_bool_eq in E; lra).
    cbn [bind].
    assert (M : (v - lo) / (hi - lo) <= (w - lo) / (hi - lo))
      by (apply Qdiv_le_mono; lra).
    split; [apply py_clamp_bounds; lra|]. split; [apply py_clamp_bounds; lra|].
    destruct (String.eqb sensor "temperature"); apply py_clamp_mono; lra.
  - repeat split; lra.
Qed.

Lemma normalize_sensor_unit (sensor : string) (v r : Q) :
  _normalize_sensor sensor v = Some r -> 0 <= r <= 1.
Proof.
  pose proof (normalize_sensor_range_direction sensor v v (Qle_refl v)) as H.
  intro E. rewrite E in H. destruct H as [H _]. exact H.
Qed.

Lemma weighted_sum_inv (data : Snapshot) (ws : list (string * Q)) (sc tw : Q) :
  Forall (fun sw => 0 <= snd sw) ws -> 0 <= sc <= tw ->
  forall sc' tw', weighted_sum data ws sc tw = Some (sc', tw') -> 0 <= sc' <= tw'.
Proof.
  revert sc tw. induction ws as [|[sensor weight] ws IH]; intros sc tw Hw Hs sc' tw' E.
  - simpl in E. injection E as <- <-. exact Hs.
  - inversion Hw as [|? ? Hw1 Hw2]; subst. simpl in Hw1. simpl in E.
    destruct (lookup sensor data) as [v|]; [|exact (IH sc tw Hw2 Hs sc' tw' E)].
    destruct (_normalize_sensor sensor v) as [r|] eqn:N; [|discriminate].
    cbn [bind] in E. apply (IH _ _ Hw2) in E; [exact E|].
    pose proof (normalize_sensor_unit sensor v r N) as [R0 R1].
    assert (P1 : r * weight <= 1 * weight) by (apply Qmult_le_compat_r; lra).
    assert (P0 : 0 <= r * weight) by (apply Qmult_le_0_compat; lra).
    lra.
Qed.

(** The base probability of [_calculate_probability], before the time and
    trend modifiers, is a weighted average of readings normalized to
    [[0, 1]]: it always lies in [[0, 100]]. *)
Theorem base_probability_range (data : Snapshot) :
  match base_probability data with
  | Some b => 0 <= b <= 100
  | None => False
  end.
Proof.
  unfold base_probability.
  destruct (AnalyzerProps.weighted_sum_some data evidence_weights 0 0) as [[sc tw] E].
  assert (I : 0 <= sc <= tw).
  { apply (weighted_sum_inv data evidence_weights 0 0); [|lra|exact E].
    repeat constructor; simpl; lra. }
  rewrite E. cbn [bind]. destruct (py_gt tw 0) eqn:G; [|lra].
  apply py_gt_true in G. unfold py_div.
  replace (Qeq_bool tw 0) with false
    by (symmetry; apply not_true_iff_false; intro Z0; apply Qeq_bool_eq in Z0; lra).
  cbn [bind].
  assert (U : sc / tw <= 1) by (apply Qle_shift_div_r; lra).
  assert (L : 0 <= sc / tw) by (apply Qle_shift_div_l; lra).
  lra.
Qed.

(** [_identify_ghost_type] as a decision list: cold with high frequency is
    a Wraith; a high EMF (above 70; a medium one does not count) with
    active motion is a Poltergeist; then high frequency alone a Specter,
    cold alone a Phantom, active motion alone an Apparition; otherwise the
    random choice. The result is always one of the ten catalogue types. *)
Theorem identify_ghost_type_rules (data : Snapshot) (choice : nat) :
  let cold := py_lt (get data "temperature" 72) 50 in
  let high_frequency := py_gt (get data "spectral" 0) 600 in
  let high_emf := py_gt (get data "emf" 0) 70 in
  let active := py_gt (get data "motion" 0) 60 in
  _identify_ghost_type data choice =
    (if cold && high_frequency then "Wraith"
     else if high_emf && active then "Poltergeist"
     else if high_frequency then "Specter"
     else if cold then "Phantom"
     else if active then "Apparition"
     else nth (choice mod 10) ghost_types "") /\
  In (_identify_ghost_type data choice) ghost_types.
Proof.
  intros cold high_frequency high_emf active.
  assert (E : _identify_ghost_type data choice =
    (if cold && high_frequency then "Wraith"
     else if high_emf && active then "Poltergeist"
     else if high_frequency then "Specter"
     else if cold then "Phantom"
     else if active then "Apparition"
     else nth (choice mod 10) ghost_types "")).
  { unfold _identify_ghost_type, cold, high_frequency, high_emf, active.
    destruct (py_gt (get data "emf" 0) 70);
      [|destruct (py_gt (get data "emf" 0) 50)];
    destruct (py_lt (get data "temperature" 72) 50);
    destruct (py_gt (get data "spectral" 0) 600);
    destruct (py_gt (get data "motion" 0) 60); reflexivity. }
  split; [exact E|]. rewrite E.
  assert (R : In (nth (choice mod 10) ghost_types "") ghost_types)
    by (apply nth_In; apply (Nat.mod_upper_bound choice 10); lia).
  destruct (cold && high_frequency); [simpl; tauto|].
  destruct (high_emf && active); [simpl; tauto|].
  destruct high_frequency; [simpl; tauto|].
  destruct cold; [simpl; tauto|].
  destruct active; [simpl; tauto|exact R].
Qed.

(** What a reported piece of evidence says about the snapshot. *)
Definition evidence_sound (data : Snapshot) (e : Evidence) : Prop :=
  match e with
  | EMFSpike v => lookup "emf" data = Some v /\ 50 < v
  | ColdSpot v => lookup "temperature" data = Some v /\ v < 55
  | SpectralAnomaly v => lookup "spectral" data = Some v /\ 500 < v
  | MotionDetected v => lookup "motion" data = Some v /\ 50 < v
  | HumiditySurge v => lookup "humidity" data = Some v /\ 65 < v
  | PressureDrop v => lookup "pressure" data = Some v /\ v < 995
  end.

(** The items one [evidence_step] adds. *)
Definition item (data : Snapshot) (k : string) (thr : Q -> bool) (mk : Q -> Evidence)
    : list Evidence :=
  match lookup k data with
  | Some v => if thr v then [mk v] else []
  | None => []
  end.

Lemma evidence_step_item (data : Snapshot) (k : string) (d : Q) (thr : Q -> bool)
    (mk : Q -> Evidence) (acc : list Evidence) :
  thr d = false ->
  evidence_step data (thr (get data k d)) k mk acc = Some (acc ++ item data k thr mk).
Proof.
  intro Hd. unfold evidence_step, item, get, index.
  destruct (lookup k data) as [v|] eqn:E.
  - destruct (thr v); [reflexivity|rewrite app_nil_r; reflexivity].
  - rewrite Hd, app_nil_r. reflexivity.
Qed.

Lemma item_sound (data : Snapshot) (k : string) (thr : Q -> bool) (mk : Q -> Evidence) :
  (forall v, lookup k data = Some v -> thr v = true -> evidence_sound data (mk v)) ->
  Forall (evidence_sound data) (item data k thr mk).
Proof.
  intro H. unfold item. destruct (lookup k data) as [v|] eqn:E; [|constructor].
  destruct (thr v) eqn:T; [|constructor].
  constructor; [apply H; reflexivity || assumption|constructor].
Qed.

Lemma Forall_firstn_ {A : Type} (P : A -> Prop) (n : nat) (l : list A) :
  Forall P l -> Forall P (firstn n l).
Proof.
  revert l. induction n as [|n IH]; intros [|x l] H; simpl; try constructor.
  - inversion H; assumption.
  - apply IH. inversion H; assumption.
Qed.

Lemma item_length (data : Snapshot) (k : string) (thr : Q -> bool) (mk : Q -> Evidence) :
  (length (item data k thr mk) <= 1)%nat.
Proof.
  unfold item. destruct (lookup k data); [destruct (thr _)|]; simpl; lia.
Qed.

Lemma item_complete (data : Snapshot) (k : string) (thr : Q -> bool)
    (mk : Q -> Evidence) (v : Q) :
  lookup k data = Some v -> thr v = true -> item data k thr mk = [mk v].
Proof. intros E T. unfold item. rewrite E, T. reflexivity. Qed.

(** Every evidence string [_gather_evidence] reports is backed by the
    snapshot: the channel is present and past its threshold. Conversely an
    EMF, cold-spot, spectral, motion or humidity reading past its threshold
    is always reported; a pressure drop is reported unless the five other
    signs already fill the list of 5. *)
Theorem gather_evidence_sound_complete (data : Snapshot) :
  match _gather_evidence data with
  | Some ev =>
      Forall (evidence_sound data) ev /\ (length ev <= 5)%nat /\
      (forall v, lookup "emf" data = Some v -> 50 < v -> In (EMFSpike v) ev) /\
      (forall v, lookup "temperature" data = Some v -> v < 55 -> In (ColdSpot v) ev) /\
      (forall v, lookup "spectral" data = Some v -> 500 < v -> In (SpectralAnomaly v) ev) /\
      (forall v, lookup "motion" data = Some v -> 50 < v -> In (MotionDetected v) ev) /\
      (forall v, lookup "humidity" data = Some v -> 65 < v -> In (HumiditySurge v) ev) /\
      (forall v, lookup "pressure" data = Some v -> v < 995 ->
                 In (PressureDrop v) ev \/ length ev = 5%nat)
  | None => False
  end.
Proof.
  set (i1 := item data "emf" (fun v => py_gt v 50) EMFSpike).
  set (i2 := item data "temperature" (fun v => py_lt v 55) ColdSpot).
  set (i3 := item data "spectral" (fun v => py_gt v 500) SpectralAnomaly).
  set (i4 := item data "motion" (fun v => py_gt v 50) MotionDetected).
  set (i5 := item data "humidity" (fun v => py_gt v 65) HumiditySurge).
  set (i6 := item data "pressure" (fun v => py_lt v 995) PressureDrop).
  assert (G : _gather_evidence data = Some (firstn 5 (i1 ++ i2 ++ i3 ++ i4 ++ i5 ++ i6))).
  { unfold _gather_evidence.
    rewrite (evidence_step_item data "emf" 0 (fun v => py_gt v 50)) by reflexivity.
    cbn [bind].
    rewrite (evidence_step_item data "temperature" 72 (fun v => py_lt v 55)) by reflexivity.
    cbn [bind].
    rewrite (evidence_step_item data "spectral" 0 (fun v => py_gt v 500)) by reflexivity.
    cbn [bind].
    rewrite (evidence_step_item data "motion" 0 (fun v => py_gt v 50)) by reflexivity.
    cbn [bind].
    rewrite (evidence_step_item data "humidity" 45 (fun v => py_gt v 65)) by reflexivity.
    cbn [bind].
    rewrite (evidence_step_item data "pressure" 1013 (fun v => py_lt v 995)) by reflexivity.
    cbn [bind]. fold i1 i2 i3 i4 i5 i6. simpl app. rewrite <- !app_assoc. reflexivity. }
  rewrite G.
  pose proof (item_length data "emf" (fun v => py_gt v 50) EMFSpike) as L1.
  pose proof (item_length data "temperature" (fun v => py_lt v 55) ColdSpot) as L2.
  pose proof (item_length data "spectral" (fun v => py_gt v 500) SpectralAnomaly) as L3.
  pose proof (item_length data "motion" (fun v => py_gt v 50) MotionDetected) as L4.
  pose proof (item_length data "humidity" (fun v => py_gt v 65) HumiditySurge) as L5.
  fold i1 i2 i3 i4 i5 in L1, L2, L3, L4, L5.
  assert (F : firstn 5 (i1 ++ i2 ++ i3 ++ i4 ++ i5 ++ i6) =
              i1 ++ i2 ++ i3 ++ i4 ++ i5 ++
              firstn (5 - length (i1 ++ i2 ++ i3 ++ i4 ++ i5)) i6).
  { rewrite !app_assoc, firstn_app, firstn_all2 by (rewrite !length_app; lia).
    reflexivity. }
  rewrite F.
  split.
  { apply Forall_app; split;
      [|apply Forall_app; split;
        [|apply Forall_app; split;
          [|apply Forall_app; split;
            [|apply Forall_app; split; [|apply Forall_firstn_]]]]];
    apply item_sound; intros v E T; simpl; split; try exact E;
      first [apply py_gt_true in T | apply py_lt_true in T]; exact T. }
  split.
  { rewrite <- F. rewrite length_firstn. lia. }
  repeat split; intros v E T.
  - assert (I : i1 = [EMFSpike v])
      by (apply item_complete; [exact E | apply py_gt_true; exact T]).
    rewrite I. simpl; auto.
  - assert (I : i2 = [ColdSpot v])
      by (apply item_complete; [exact E | apply py_lt_true; exact T]).
    apply in_or_app; right. rewrite I. simpl; auto.
  - assert (I : i3 = [SpectralAnomaly v])
      by (apply item_complete; [exact E | apply py_gt_true; exact T]).
    do 2 (apply in_or_app; right). rewrite I. simpl; auto.
  - assert (I : i4 = [MotionDetected v])
      by (apply item_complete; [exact E | apply py_gt_true; exact T]).
    do 3 (apply in_or_app; right). rewrite I. simpl; auto.
  - assert (I : i5 = [HumiditySurge v])
      by (apply item_complete; [exact E | apply py_gt_true; exact T]).
    do 4 (apply in_or_app; right). rewrite I. simpl; auto.
  - assert (I6 : i6 = [PressureDrop v])
      by (apply item_complete; [exact E | apply py_lt_true; exact T]).
    rewrite I6. rewrite !length_app.
    destruct (Nat.eq_dec (length i1 + (length i2 + (length i3 + (length i4 + length i5)))) 5)
      as [D|D].
    + right. rewrite D. simpl. lia.
    + left. do 5 (apply in_or_app; right).
      replace (5 - _)%nat
        with (S (4 - (length i1 + (length i2 + (length i3 + (length i4 + length i5))))))
        by lia.
      simpl; auto.
Qed.

End AnalyzerExtra.

Module LoggerExtra.
Import Analyzer Logger LoggerRings.
Local Open Scope string_scope.
Local Open Scope list_scope.

(** A log entry at time [t] with no readings and a low analysis. *)
Definition sample_entry (t : Z) : LogEntry :=
  mkLogEntry t [] (mkAnalysis t 0 None [] 0 "Low" []).

Lemma filter_idem {A : Type} (f : A -> bool) (l : list A) :
  filter f (filter f l) = filter f l.
Proof.
  induction l as [|x l IH]; simpl; [reflexivity|].
  destruct (f x) eqn:E; simpl; [rewrite E, IH|]; auto.
Qed.

(** On a log ring within its capacity, [clear_old_logs(days)] keeps exactly
    the entries newer than the cutoff, in order, leaves the events alone,
    and reports as removed the number of entries at or before the cutoff;
    a second call with the same clock and [days] removes nothing. *)
Theorem clear_old_logs_removed_count (now days : Z) (s : DataLogger)
    (Hb : (length (logs s) <= 1000)%nat) :
  let cutoff := (now - days * 86400)%Z in
  let '(s', removed) := clear_old_logs_removed now days s in
  logs s' = filter (fun l => cutoff <? log_timestamp l)%Z (logs s) /\
  events s' = events s /\
  removed = Z.of_nat (length (filter (fun l => negb (cutoff <? log_timestamp l)%Z) (logs s))) /\
  clear_old_logs_removed now days s' = (s', 0%Z).
Proof.
  intro cutoff. unfold clear_old_logs_removed, clear_old_logs. fold cutoff. simpl.
  set (p := fun l : LogEntry => (cutoff <? log_timestamp l)%Z).
  assert (Hf : (length (filter p (logs s)) <= 1000)%nat)
    by (pose proof (filter_length_le p (logs s)); lia).
  rewrite (py_tail_short 1000 (filter p (logs s)) Hf).
  split; [reflexivity|]. split; [reflexivity|]. split.
  - pose proof (filter_length p (logs s)) as L. unfold p in L |- *. cbv beta in L. lia.
  - rewrite filter_idem. rewrite (py_tail_short 1000 (filter p (logs s)) Hf).
    f_equal. lia.
Qed.

(** [get_recent_logs(count)] for a [count] of at least 1 returns the last
    [min(count, len(logs))] entries, in order ([GET /api/history] asks for
    100); a [count] of 0 returns the whole ring. *)
Theorem get_recent_logs_suffix (count : Z) (s : DataLogger)
    (Hc : (1 <= count)%Z) :
  let r := get_recent_logs count s in
  length r = Nat.min (Z.to_nat count) (length (logs s)) /\
  (exists older, logs s = older ++ r) /\
  get_recent_logs 0 s = logs s.
Proof.
  intro r. unfold r, get_recent_logs, py_slice_last.
  replace (count <=? 0)%Z with false by (symmetry; apply Z.leb_gt; lia).
  split; [rewrite length_skipn; lia|]. split; [|reflexivity].
  exists (firstn (length (logs s) - Z.to_nat count) (logs s)).
  symmetry. apply firstn_skipn.
Qed.

Lemma fold_py_max_ge (xs : list Q) (x : Q) : x <= fold_left py_max xs x.
Proof.
  revert x. induction xs as [|y ys IH]; intro x; simpl; [lra|].
  destruct (py_max_bounds x y) as [H _]. specialize (IH (py_max x y)). lra.
Qed.

Lemma fold_py_min_le (xs : list Q) (x : Q) : fold_left py_min xs x <= x.
Proof.
  revert x. induction xs as [|y ys IH]; intro x; simpl; [lra|].
  destruct (py_min_bounds x y) as [H _]. specialize (IH (py_min x y)). lra.
Qed.

Lemma list_min_le_max (xs : list Q) : list_min xs <= list_max xs.
Proof.
  destruct xs as [|x xs]; simpl; [lra|].
  pose proof (fold_py_max_ge xs x). pose proof (fold_py_min_le xs x). lra.
Qed.

Lemma dict_incr_sum {K : Type} (eqb : K -> K -> bool) (k : K) (d : list (K * nat)) :
  list_sum (map snd (dict_incr eqb k d)) = S (list_sum (map snd d)).
Proof.
  induction d as [|[k' n] d IH]; simpl; [reflexivity|].
  destruct (eqb k k'); simpl; [reflexivity|]. rewrite IH. lia.
Qed.

Lemma type_breakdown_sum (dets : list LogEntry) :
  (list_sum (map snd (type_breakdown dets)) <= length dets)%nat.
Proof.
  unfold type_breakdown.
  assert (G : forall d, (list_sum (map snd (fold_left (fun d l =>
      match ghost_type (log_analysis l) with
      | Some g => if String.eqb g "" then d else dict_incr String.eqb g d
      | None => d
      end) dets d)) <= list_sum (map snd d) + length dets)%nat).
  { induction dets as [|l dets IH]; intro d; simpl; [lia|].
    specialize (IH (match ghost_type (log_analysis l) with
                    | Some g => if String.eqb g "" then d else dict_incr String.eqb g d
                    | None => d
                    end)).
    destruct (ghost_type (log_analysis l)) as [g|]; [destruct (String.eqb g "")|];
      try rewrite dict_incr_sum in IH; lia. }
  specialize (G []). simpl in G. exact G.
Qed.

Lemma max_by_count_in {K : Type} (items : list (K * nat)) (r : K * nat) :
  max_by_count items = Some r -> In r items.
Proof.
  destruct items as [|x xs]; [discriminate|]. intro E.
  destruct (HourClaims.max_by_count_first x xs) as [pre [post [r' [E' [Hs _]]]]].
  rewrite E in E'. injection E' as <-. rewrite Hs. apply in_or_app. right. left. reflexivity.
Qed.

(** A report of [generate_report] never raises, and its figures are
    consistent: the minimum probability is at most the maximum, the
    detections are at most the readings, the ghost-type counts add up to at
    most the detections, and the most active hour has between 1 and
    [total_readings] readings. With no reading in the window the result is
    the no-data message. *)
Theorem generate_report_consistent (now hours : Z) (s : DataLogger) :
  match generate_report now hours s with
  | Some NoData => filter (in_window now hours) (logs s) = []
  | Some (ReportOk r) =>
      min_probability r <= max_probability r /\
      (total_detections r <= total_readings r)%nat /\
      (list_sum (map snd (ghost_type_breakdown r)) <= total_detections r)%nat /\
      match most_active_hour r with
      | HourRange _ n => (1 <= n <= total_readings r)%nat
      | Unknown => False
      end
  | None => False
  end.
Proof.
  unfold generate_report.
  destruct (filter (in_window now hours) (logs s)) as [|l0 ls] eqn:W; [reflexivity|].
  set (ps := map (fun l => probability (log_analysis l)) (l0 :: ls)).
  assert (Hd : exists avg, match ps with
                           | [] => Some 0
                           | _ => py_div (fold_left Qplus ps 0)
                                    (inject_Z (Z.of_nat (length ps)))
                           end = Some avg).
  { unfold ps. cbn [map]. unfold py_div.
    rewrite LoggerClaims.Qeq_bool_length_nonzero. eexists; reflexivity. }
  destruct Hd as [avg Ha]. fold ps. rewrite Ha.
  cbn [bind min_probability max_probability total_detections total_readings
       ghost_type_breakdown most_active_hour].
  split; [apply list_min_le_max|].
  split; [apply filter_length_le|].
  split; [apply type_breakdown_sum|].
  unfold _get_most_active_hour.
  destruct (max_by_count (hour_counts (l0 :: ls))) as [[h n]|] eqn:M.
  - apply max_by_count_in in M. rewrite HourClaims.hour_counts_spec in M.
    apply HourClaims.counts_in in M as [Hin ->].
    unfold HourClaims.cnt. split.
    + apply (count_occ_In Z.eq_dec) in Hin. lia.
    + pose proof (count_occ_bound Z.eq_dec h (HourClaims.hours (l0 :: ls))) as B.
      unfold HourClaims.hours in B. rewrite length_map in B. exact B.
  - unfold hour_counts in M. simpl in M.
    destruct (fold_left _ ls _) as [|x xs] eqn:F; [|discriminate].
    exfalso.
    assert (NE : forall ls' d, d <> [] ->
              fold_left (fun d l => dict_incr Z.eqb (hour_of (log_timestamp l)) d) ls' d <> []).
    { induction ls' as [|l' ls' IH]; intros d Hd; simpl; [exact Hd|].
      apply IH. destruct d as [|[k c] d]; [contradiction|]. simpl.
      destruct (Z.eqb _ k); discriminate. }
    refine (NE ls _ _ F). discriminate.
Qed.

End LoggerExtra.

Module SensorExtra.
Import Sensors.
Local Open Scope string_scope.
Local Open Scope list_scope.

(** Draws of a night-time tick at full activity: [random.uniform(0, 40)]
    gives 40 and the cycle's sine is 1. *)
Definition night_draws : Draws :=
  mkDraws 40 1 0 (1#2) 40 0 0 10 0 (-7) 200 0 (1#2) 300 10.

Definition channels (t : SensorTable) : list Channel :=
  [emf t; temperature t; humidity t; pressure t; spectral t; motion t].

(** A channel keeps the ['min'], ['max'] and ['unit'] it was created with,
    and its value lies between them. *)
Definition channel_ok (c c0 : Channel) : Prop :=
  ch_min c = ch_min c0 /\ ch_max c = ch_max c0 /\ ch_unit c = ch_unit c0 /\
  ch_min c0 <= ch_value c <= ch_max c0.

Definition table_ok (t : SensorTable) : Prop :=
  Forall2 channel_ok (channels t) (channels (sensors init)).

Lemma set_value_ok (c c0 : Channel) (lo hi x : Q) :
  ch_min c = ch_min c0 -> ch_max c = ch_max c0 -> ch_unit c = ch_unit c0 ->
  ch_min c0 = lo -> ch_max c0 = hi -> lo <= hi ->
  channel_ok (set_value c (py_max lo (py_min hi x))) c0.
Proof.
  intros H1 H2 H3 H4 H5 H6. unfold channel_ok, set_value; simpl.
  split; [exact H1|]. split; [exact H2|]. split; [exact H3|].
  rewrite H4, H5. apply py_clamp_bounds; exact H6.
Qed.

Lemma update_ok (now h : Z) (d : Draws) (s : SensorManager) :
  table_ok (sensors s) -> table_ok (sensors (_update_sensor_readings now h d s)).
Proof.
  intro H. unfold table_ok, channels in *.
  inversion H as [|c1 c01 l1 l01 [A1 [B1 [C1 _]]] H1]; subst.
  inversion H1 as [|c2 c02 l2 l02 [A2 [B2 [C2 _]]] H2]; subst.
  inversion H2 as [|c3 c03 l3 l03 [A3 [B3 [C3 _]]] H3]; subst.
  inversion H3 as [|c4 c04 l4 l04 [A4 [B4 [C4 _]]] H4]; subst.
  inversion H4 as [|c5 c05 l5 l05 [A5 [B5 [C5 _]]] H5]; subst.
  inversion H5 as [|c6 c06 l6 l06 [A6 [B6 [C6 _]]] H6]; subst.
  unfold _update_sensor_readings.
  destruct (_calculate_ghost_activity now h d (activity_patterns s)) as [ga ps].
  simpl.
  repeat constructor; apply set_value_ok; try assumption; try reflexivity;
    unfold Qle; simpl; lia.
Qed.

Lemma step_ok (s : SensorManager) (o : Op) :
  table_ok (sensors s) -> table_ok (sensors (step s o)).
Proof.
  intro H. destruct o as [now h d|offs|now|]; simpl.
  - destruct (running s); [apply update_ok|]; exact H.
  - exact H.
  - unfold start. destruct (running s); exact H.
  - exact H.
Qed.

Lemma run_ok (os : list Op) (s : SensorManager) :
  table_ok (sensors s) -> table_ok (sensors (run s os)).
Proof.
  revert s. induction os as [|o os IH]; intros s H; simpl; [exact H|].
  apply IH, step_ok, H.
Qed.

(** Whatever the random draws, calibration offsets and clock, every sensor
    keeps the range and unit it was created with and its value stays in
    that range (EMF 0-100, temperature 40-90, humidity 20-80, pressure
    980-1030, spectral 0-1000, motion 0-100); so does every reading
    [get_all_readings] returns after rounding to one decimal. *)
Theorem sensor_values_within_ranges (os : list Op) :
  let s := run init os in
  Forall2 channel_ok (channels (sensors s)) (channels (sensors init)) /\
  Forall2 (fun kv c0 => ch_min c0 <= snd kv <= ch_max c0)
    (get_all_readings s) (channels (sensors init)).
Proof.
  intro s.
  assert (H : table_ok (sensors s)).
  { apply run_ok. unfold table_ok. repeat constructor; unfold Qle; simpl; lia. }
  split; [exact H|].
  unfold table_ok, channels in H.
  inversion H as [|c1 c01 l1 l01 [_ [_ [_ V1]]] H1]; subst.
  inversion H1 as [|c2 c02 l2 l02 [_ [_ [_ V2]]] H2]; subst.
  inversion H2 as [|c3 c03 l3 l03 [_ [_ [_ V3]]] H3]; subst.
  inversion H3 as [|c4 c04 l4 l04 [_ [_ [_ V4]]] H4]; subst.
  inversion H4 as [|c5 c05 l5 l05 [_ [_ [_ V5]]] H5]; subst.
  inversion H5 as [|c6 c06 l6 l06 [_ [_ [_ V6]]] H6]; subst.
  unfold get_all_readings.
  repeat apply Forall2_cons; try apply Forall2_nil; cbn [snd ch_min ch_max].
  - apply (py_round1_bounds 0 100); exact V1.
  - apply (py_round1_bounds 40 90); exact V2.
  - apply (py_round1_bounds 20 80); exact V3.
  - apply (py_round1_bounds 980 1030); exact V4.
  - apply (py_round1_bounds 0 1000); exact V5.
  - apply (py_round1_bounds 0 100); exact V6.
Qed.

(** With the draws in their ranges ([random.uniform(0, 40)] and a sine in
    [[-1, 1]]), [_calculate_ghost_activity] returns a level in [[0, 100]],
    at least 30 at night (before 6 or after 20 o'clock) and at most 70 in
    the day; the [min(100, ...)] cap never changes the level, which is
    stored as the newest of at most 100 patterns. *)
Theorem calculate_ghost_activity_range (now hour : Z) (d : Draws) (ps : list Pattern)
    (Hr : 0 <= random_activity d <= 40) (Hs : -1 <= cycle_sin d <= 1)
    (Hp : (length ps <= 100)%nat) :
  let '(a, ps') := _calculate_ghost_activity now hour d ps in
  0 <= a <= 100 /\
  (if ((hour <? 6) || (20 <? hour))%Z then 30 <= a else a <= 70) /\
  exists level, level == a /\ ps' = py_tail 100 (ps ++ [mkPattern now level]) /\
                (length ps' <= 100)%nat.
Proof.
  unfold _calculate_ghost_activity.
  set (tf := if ((hour <? 6) || (20 <? hour))%Z then 30 else 0).
  set (act := (tf + random_activity d + (cycle_sin d + 1) * 15)%Q).
  assert (Hact : 0 <= act <= 100 /\
                 (if ((hour <? 6) || (20 <? hour))%Z then 30 <= act else act <= 70)).
  { unfold act, tf. destruct ((hour <? 6) || (20 <? hour))%Z; split; lra. }
  destruct Hact as [Hb Hn].
  assert (Hm : py_min 100 act == act).
  { destruct (py_min_bounds 100 act) as [M1 [M2|M2]]; [|exact M2].
    unfold py_min in *. destruct (py_lt act 100) eqn:E; [reflexivity|].
    apply py_lt_false in E. lra. }
  split; [lra|]. split.
  - destruct ((hour <? 6) || (20 <? hour))%Z; lra.
  - exists act. split; [symmetry; exact Hm|].
    change ((if (100 <? length (ps ++ [mkPattern now act]))%nat
             then tl (ps ++ [mkPattern now act]) else ps ++ [mkPattern now act]) =
            py_tail 100 (ps ++ [mkPattern now act]) /\
            (length (if (100 <? length (ps ++ [mkPattern now act]))%nat
                     then tl (ps ++ [mkPattern now act])
                     else ps ++ [mkPattern now act]) <= 100)%nat).
    fold (deque_append 100 ps (mkPattern now act)).
    split; [apply deque_append_tail | apply length_deque_append]; exact Hp.
Qed.

Lemma simulate_temperature_emf_cold (ga e off : Q) (d : Draws) :
  temp_jitter d <= 1 -> off <= 2 -> py_gt e 70 = true ->
  _simulate_temperature ga e off d <= 65.
Proof.
  intros Ht Ho E. unfold _simulate_temperature. rewrite E.
  assert (B1 : (if py_gt ga 60 then (72 + temp_jitter d - ga * (3 # 10))%Q
                else (72 + temp_jitter d)%Q) <= 73).
  { destruct (py_gt ga 60) eqn:G; [apply py_gt_true in G|]; lra. }
  revert B1.
  generalize (if py_gt ga 60 then (72 + temp_jitter d - ga * (3 # 10))%Q
              else (72 + temp_jitter d)%Q).
  intros b1 B1.
  assert (X : b1 - 10 + off <= 65) by lra.
  revert X. generalize (b1 - 10 + off). intros x X.
  destruct (py_min_bounds 90 x) as [M1 [M2|M2]];
  destruct (py_max_bounds 40 (py_min 90 x)) as [X1 [X2|X2]];
  pose proof (AnalyzerExtra.py_min_le_r 90 x); lra.
Qed.

Lemma simulate_motion_emf_follows (ga e off : Q) (d : Draws) :
  0 <= motion_base d -> -2 <= off -> py_gt e 60 = true ->
  28 <= _simulate_motion ga e off d.
Proof.
  intros Hm Ho E. unfold _simulate_motion. rewrite E.
  assert (B1 : 0 <= (if py_gt ga 50 then (motion_base d + ga * (4 # 10))%Q
                     else motion_base d)).
  { destruct (py_gt ga 50) eqn:G; [apply py_gt_true in G|]; lra. }
  revert B1.
  generalize (if py_gt ga 50 then (motion_base d + ga * (4 # 10))%Q else motion_base d).
  intros b1 B1.
  assert (X : 28 <= b1 + 30 + off) by lra.
  revert X. generalize (b1 + 30 + off). intros x X.
  pose proof (AnalyzerExtra.py_max_ge_r 0 (py_min 100 x)).
  destruct (py_min_bounds 100 x) as [M1 [M2|M2]]; lra.
Qed.

Lemma update_values (now hour : Z) (d : Draws) (s : SensorManager) :
  let ga := fst (_calculate_ghost_activity now hour d (activity_patterns s)) in
  let t := sensors (_update_sensor_readings now hour d s) in
  let e := _simulate_emf ga (off_emf (calibration_offset s)) d in
  ch_value (emf t) = e /\
  ch_value (temperature t) = _simulate_temperature ga e (off_temperature (calibration_offset s)) d /\
  ch_value (motion t) = _simulate_motion ga e (off_motion (calibration_offset s)) d.
Proof.
  unfold _update_sensor_readings.
  destruct (_calculate_ghost_activity now hour d (activity_patterns s)) as [ga ps].
  repeat split.
Qed.
(** Temperature and motion read the EMF value written in the same update:
    with the draws and offsets in their ranges, an EMF above 70 always
    comes with a temperature of at most 65 and an EMF above 60 with a
    motion reading of at least 28. *)
Theorem update_emf_correlations (now hour : Z) (d : Draws) (s : SensorManager)
    (Ht : temp_jitter d <= 1) (Hm : 0 <= motion_base d)
    (Hot : off_temperature (calibration_offset s) <= 2)
    (Hom : -2 <= off_motion (calibration_offset s)) :
  let t := sensors (_update_sensor_readings now hour d s) in
  (if py_gt (ch_value (emf t)) 70 then ch_value (temperature t) <= 65 else True) /\
  (if py_gt (ch_value (emf t)) 60 then 28 <= ch_value (motion t) else True).
Proof.
  destruct (update_values now hour d s) as [E1 [E2 E3]].
  cbv zeta in *. rewrite E1, E2, E3.
  split.
  - destruct (py_gt _ 70) eqn:E; [|exact I].
    apply simulate_temperature_emf_cold; assumption.
  - destruct (py_gt _ 60) eqn:E; [|exact I].
    apply simulate_motion_emf_follows; assumption.
Qed.
End SensorExtra.

Module MainExtra.
Import Analyzer Logger Main.
Local Open Scope list_scope.

Lemma analyze_some (now hour : Z) (choice : nat) (r : Q) (data : Snapshot)
    (history : list Analysis) :
  exists a h, analyze now hour choice r data history = Some (a, h).
Proof.
  unfold analyze.
  destruct (AnalyzerProps.calculate_probability_bounds data hour history) as [p [Hp _]].
  rewrite Hp. cbn [bind]. destruct (py_gt p 40).
  - destruct (AnalyzerProps.gather_evidence_some data) as [ev [He _]].
    rewrite He. cbn [bind]. eauto.
  - cbn [bind]. eauto.
Qed.

(** [GET /api/sensors] never answers 500 ([analyze] raises on no snapshot
    of the six readings); it answers the readings when the rounded
    probability is at most 60, and above 60 it never answers: [log_reading]
    blocks on its own lock. *)
Theorem get_sensor_data_reply (now hour : Z) (choice : nat) (r : Q) (app : App) :
  match analyze now hour choice r (Sensors.get_all_readings (sensor_manager app))
          (analyzer_history app) with
  | Some (a, _) =>
      snd (get_sensor_data now hour choice r app) =
        if py_gt (probability a) 60 then NoReply
        else Answer (Sensors.get_all_readings (sensor_manager app))
  | None => False
  end.
Proof.
  destruct (analyze_some now hour choice r (Sensors.get_all_readings (sensor_manager app))
              (analyzer_history app)) as [a [h A]].
  rewrite A. unfold get_sensor_data. cbv zeta. rewrite A.
  unfold log_reading. destruct (py_gt (probability a) 60); reflexivity.
Qed.

Lemma get_sensor_data_keeps (now h : Z) (choice : nat) (r : Q) (app : App) :
  alarm_system (fst (get_sensor_data now h choice r app)) = alarm_system app /\
  events (data_logger (fst (get_sensor_data now h choice r app))) =
    events (data_logger app).
Proof.
  unfold get_sensor_data.
  destruct (analyze now h choice r (Sensors.get_all_readings (sensor_manager app))
              (analyzer_history app)) as [[a hist]|]; [|split; reflexivity].
  unfold log_reading.
  destruct (py_gt (probability a) 60) eqn:G; [split; reflexivity|].
  apply py_gt_false in G.
  assert (G' : py_gt (probability a) 70 = false) by (apply py_gt_false; lra).
  rewrite G'. split; reflexivity.
Qed.

Lemma app_step_keeps (app : App) (ev : Event) :
  alarm_system (fst (app_step app ev)) = alarm_system app /\
  events (data_logger (fst (app_step app ev))) = events (data_logger app).
Proof.
  destruct ev as [now h choice r|offs|now|now h d]; unfold app_step;
    [apply get_sensor_data_keeps|split; reflexivity..].
Qed.

(** Through the application's handlers the alarm system is never
    triggered and no event is logged: [get_sensor_data] would call
    [trigger_alarm] only for a probability above 70, but [log_reading]
    already blocks for any probability above 60; so for every sequence of
    requests, sensor passes and hooks the alarm system and the events ring
    keep the state they started in. *)
Theorem api_never_triggers_alarm (app : App) (evs : list Event) :
  alarm_system (fst (app_run app evs)) = alarm_system app /\
  events (data_logger (fst (app_run app evs))) = events (data_logger app).
Proof.
  revert app. induction evs as [|ev evs IH]; intro app; simpl; [split; reflexivity|].
  destruct (app_step_keeps app ev) as [K1 K2].
  destruct (app_step app ev) as [app' rep]. simpl in K1, K2.
  destruct rep; try (destruct (IH app') as [I1 I2]; rewrite I1, I2; split; assumption).
  simpl. split; assumption.
Qed.

End MainExtra.

(** ** Instances of the conditional theorems *)

(** [analyze_details_gate] at emf 80 and spectral 700 at noon, with the
    random confidence draw 10. *)
Lemma analyze_details_gate_witness :
  (5 <= 10 <= 15)%Q /\
  match Analyzer._calculate_probability [("emf"%string, 80); ("spectral"%string, 700)] 12 [],
        Analyzer.analyze 0 12 0 10 [("emf"%string, 80); ("spectral"%string, 700)] [] with
  | Some p, Some (a, _) =>
      Analyzer.probability a = py_round1 p /\ (length (Analyzer.evidence a) <= 5)%nat /\
      (if Qlt_le_dec 40 p then
         Analyzer.ghost_type a <> None /\ 5 <= Analyzer.confidence a /\
         Analyzer.recommendations a <> [] /\
         Some (Analyzer.evidence a) =
           Analyzer._gather_evidence [("emf"%string, 80); ("spectral"%string, 700)]
       else
         Analyzer.ghost_type a = None /\ Analyzer.evidence a = [] /\
         Analyzer.confidence a = 0 /\ Analyzer.recommendations a = [])
  | _, _ => False
  end.
Proof.
  split; [split; unfold Qle; simpl; lia|].
  apply (ScoringClaims.analyze_details_gate 0 12 0 10
           [("emf"%string, 80); ("spectral"%string, 700)] []).
  split; unfold Qle; simpl; lia.
Defined.

(** [get_events_truncates_then_filters] for the type
    ["significant_detection"], limit 3 and a two-event ring. *)
Lemma get_events_truncates_then_filters_witness :
  "significant_detection"%string <> ""%string /\
  Logger.get_events (Some "significant_detection"%string) 3
    (Logger.mkLogger [] [LoggerClaims.significant 1; LoggerClaims.untyped 2]) =
    filter (LoggerClaims.has_type "significant_detection")
      (if (3 =? 0)%Z then Logger.events
         (Logger.mkLogger [] [LoggerClaims.significant 1; LoggerClaims.untyped 2])
       else if (0 <? 3)%Z then
         skipn (length (Logger.events
                  (Logger.mkLogger [] [LoggerClaims.significant 1; LoggerClaims.untyped 2]))
                - Z.to_nat 3)
           (Logger.events
              (Logger.mkLogger [] [LoggerClaims.significant 1; LoggerClaims.untyped 2]))
       else skipn (Z.to_nat (- 3)) (Logger.events
              (Logger.mkLogger [] [LoggerClaims.significant 1; LoggerClaims.untyped 2]))) /\
  ((1 <= 3 < 500)%Z ->
   exists s' : Logger.DataLogger,
     (length (Logger.events s') <= 500)%nat /\
     (length (Logger.get_events (Some "significant_detection"%string) 3 s') < Z.to_nat 3)%nat /\
     exists e, In e (Logger.events s') /\
               LoggerClaims.has_type "significant_detection" e = true /\
               ~ In e (Logger.get_events (Some "significant_detection"%string) 3 s')) /\
  ((500 <= 3)%Z ->
   (length (Logger.events
      (Logger.mkLogger [] [LoggerClaims.significant 1; LoggerClaims.untyped 2])) <= 500)%nat ->
   Logger.get_events (Some "significant_detection"%string) 3
     (Logger.mkLogger [] [LoggerClaims.significant 1; LoggerClaims.untyped 2]) =
   filter (LoggerClaims.has_type "significant_detection")
     (Logger.events
        (Logger.mkLogger [] [LoggerClaims.significant 1; LoggerClaims.untyped 2]))).
Proof.
  split; [discriminate|].
  apply (LoggerClaims.get_events_truncates_then_filters "significant_detection" 3
           (Logger.mkLogger [] [LoggerClaims.significant 1; LoggerClaims.untyped 2])).
  discriminate.
Defined.

(** [confidence_more_than_five_entries] after six [analyze] calls on the
    reading emf 55, with the draw 10: the history term counts. *)
Lemma confidence_more_than_five_entries_witness :
  (5 <= 10 <= 15)%Q /\
  (Analyzer._calculate_confidence [("emf"%string, 55)]
     (ScoringClaims.analyze_repeat 6 [("emf"%string, 55)] []) 10 ==
   ScoringClaims.confidence_amended [("emf"%string, 55)]
     (ScoringClaims.analyze_repeat 6 [("emf"%string, 55)] []) 10 /\
   5 <= Analyzer._calculate_confidence [("emf"%string, 55)]
          (ScoringClaims.analyze_repeat 6 [("emf"%string, 55)] []) 10 <= 100)%Q.
Proof.
  split; [split; unfold Qle; simpl; lia|].
  apply (ScoringClaims.confidence_more_than_five_entries [("emf"%string, 55)]
           (ScoringClaims.analyze_repeat 6 [("emf"%string, 55)] []) 10).
  split; unfold Qle; simpl; lia.
Defined.

(** ** Instances of the conditional properties of the code *)

Section ExtraInstances.
Local Open Scope Q_scope.
Local Open Scope string_scope.
Local Open Scope list_scope.

(** Two alerts at level EMERGENCY (probabilities 95 and 92) in a row. *)
Lemma trigger_alarm_repeat_same_level_witness :
  Alarm.level_of (AlarmProps.prob_of (Alarm.mkView (Some 95) None)) =
  Alarm.level_of (AlarmProps.prob_of (Alarm.mkView (Some 92) None)) /\
  let s1 := Alarm.trigger_alarm 1 (Alarm.mkView (Some 95) None) Alarm.init in
  let s2 := Alarm.trigger_alarm 2 (Alarm.mkView (Some 92) None) s1 in
  Alarm.alarm_state s2 = Alarm.alarm_state s1 /\
  Alarm.alarm_history s2 = Alarm.alarm_history s1 /\ Alarm.sounds s2 = Alarm.sounds s1 /\
  Alarm.active_alerts s2 =
    match AlarmProps.alert_of (Alarm.level_of (AlarmProps.prob_of (Alarm.mkView (Some 92) None))) with
    | Some (m, t) => Alarm._add_alert 2 m t (Alarm.active_alerts s1)
    | None => Alarm.active_alerts s1
    end.
Proof.
  split; [reflexivity|].
  apply (AlarmExtra.trigger_alarm_repeat_same_level 1 2 (Alarm.mkView (Some 95) None)
           (Alarm.mkView (Some 92) None) Alarm.init).
  reflexivity.
Defined.

(** Acknowledging the emergency alert of [simulate_emergency]. *)
Lemma acknowledge_alert_status_count_witness :
  nth_error (Alarm.active_alerts (Alarm.simulate_emergency 1 Alarm.init)) 0 =
    Some (Alarm.mkAlert 1 Alarm.msg_emergency "emergency" false) /\
  let '(s', ok) := Alarm.acknowledge_alert (Z.of_nat 0) (Alarm.simulate_emergency 1 Alarm.init) in
  ok = true /\
  Alarm.active_count (Alarm.get_status s') =
    Alarm.active_count (Alarm.get_status (Alarm.simulate_emergency 1 Alarm.init)) /\
  Alarm.unacknowledged (Alarm.get_status s') = length (Alarm.get_alerts false s') /\
  (if Alarm.alert_acknowledged (Alarm.mkAlert 1 Alarm.msg_emergency "emergency" false)
   then s' = Alarm.simulate_emergency 1 Alarm.init
   else S (Alarm.unacknowledged (Alarm.get_status s')) =
        Alarm.unacknowledged (Alarm.get_status (Alarm.simulate_emergency 1 Alarm.init))).
Proof.
  split; [reflexivity|].
  apply (AlarmExtra.acknowledge_alert_status_count 0
           (Alarm.mkAlert 1 Alarm.msg_emergency "emergency" false)
           (Alarm.simulate_emergency 1 Alarm.init)).
  reflexivity.
Defined.

(** Temperatures 50 and 60: the colder one scores higher. *)
Lemma normalize_sensor_range_direction_witness :
  50 <= 60 /\
  match Analyzer._normalize_sensor "temperature" 50, Analyzer._normalize_sensor "temperature" 60 with
  | Some x, Some y =>
      0 <= x <= 1 /\ 0 <= y <= 1 /\
      match Analyzer.lookup "temperature" Analyzer.ranges with
      | Some _ => if String.eqb "temperature" "temperature" then y <= x else x <= y
      | None => x = 0 /\ y = 0
      end
  | _, _ => False
  end.
Proof.
  split; [unfold Qle; simpl; lia|].
  apply (AnalyzerExtra.normalize_sensor_range_direction "temperature" 50 60).
  unfold Qle; simpl; lia.
Defined.

(** A week-old cutoff over entries at times 0 and 900000. *)
Lemma clear_old_logs_removed_count_witness :
  (length (Logger.logs (Logger.mkLogger
     [LoggerExtra.sample_entry 0; LoggerExtra.sample_entry 900000] [])) <= 1000)%nat /\
  let cutoff := (1000000 - 7 * 86400)%Z in
  let '(s', removed) := Logger.clear_old_logs_removed 1000000 7
     (Logger.mkLogger [LoggerExtra.sample_entry 0; LoggerExtra.sample_entry 900000] []) in
  Logger.logs s' = filter (fun l => cutoff <? Logger.log_timestamp l)%Z
     [LoggerExtra.sample_entry 0; LoggerExtra.sample_entry 900000] /\
  Logger.events s' = [] /\
  removed = Z.of_nat (length (filter (fun l => negb (cutoff <? Logger.log_timestamp l)%Z)
     [LoggerExtra.sample_entry 0; LoggerExtra.sample_entry 900000])) /\
  Logger.clear_old_logs_removed 1000000 7 s' = (s', 0%Z).
Proof.
  split; [simpl; lia|].
  apply (LoggerExtra.clear_old_logs_removed_count 1000000 7
           (Logger.mkLogger [LoggerExtra.sample_entry 0; LoggerExtra.sample_entry 900000] [])).
  simpl; lia.
Defined.

(** The last two of three entries. *)
Lemma get_recent_logs_suffix_witness :
  (1 <= 2)%Z /\
  let r := Logger.get_recent_logs 2 (Logger.mkLogger
     [LoggerExtra.sample_entry 1; LoggerExtra.sample_entry 2; LoggerExtra.sample_entry 3] []) in
  length r = Nat.min (Z.to_nat 2) 3 /\
  (exists older, [LoggerExtra.sample_entry 1; LoggerExtra.sample_entry 2;
                  LoggerExtra.sample_entry 3] = older ++ r) /\
  Logger.get_recent_logs 0 (Logger.mkLogger
     [LoggerExtra.sample_entry 1; LoggerExtra.sample_entry 2; LoggerExtra.sample_entry 3] []) =
  [LoggerExtra.sample_entry 1; LoggerExtra.sample_entry 2; LoggerExtra.sample_entry 3].
Proof.
  split; [lia|].
  apply (LoggerExtra.get_recent_logs_suffix 2 (Logger.mkLogger
     [LoggerExtra.sample_entry 1; LoggerExtra.sample_entry 2; LoggerExtra.sample_entry 3] [])).
  lia.
Defined.

(** A night-time tick at 22h with the draws at their maximum. *)
Lemma calculate_ghost_activity_range_witness :
  (0 <= Sensors.random_activity SensorExtra.night_draws <= 40 /\
   -1 <= Sensors.cycle_sin SensorExtra.night_draws <= 1 /\
   (length (@nil Sensors.Pattern) <= 100)%nat) /\
  let '(a, ps') := Sensors._calculate_ghost_activity 5 22 SensorExtra.night_draws [] in
  0 <= a <= 100 /\
  (if ((22 <? 6) || (20 <? 22))%Z then 30 <= a else a <= 70) /\
  exists level, level == a /\ ps' = py_tail 100 ([] ++ [Sensors.mkPattern 5 level]) /\
                (length ps' <= 100)%nat.
Proof.
  split; [split; [vm_compute; split; discriminate|split; [vm_compute; split; discriminate|simpl; lia]]|].
  apply (SensorExtra.calculate_ghost_activity_range 5 22 SensorExtra.night_draws []);
    [vm_compute; split; discriminate | vm_compute; split; discriminate | simpl; lia].
Defined.

(** The same tick from the initial sensor state. *)
Lemma update_emf_correlations_witness :
  (Sensors.temp_jitter SensorExtra.night_draws <= 1 /\
   0 <= Sensors.motion_base SensorExtra.night_draws /\
   Sensors.off_temperature (Sensors.calibration_offset Sensors.init) <= 2 /\
   -2 <= Sensors.off_motion (Sensors.calibration_offset Sensors.init)) /\
  let t := Sensors.sensors (Sensors._update_sensor_readings 5 22 SensorExtra.night_draws Sensors.init) in
  (if py_gt (Sensors.ch_value (Sensors.emf t)) 70 then Sensors.ch_value (Sensors.temperature t) <= 65 else True) /\
  (if py_gt (Sensors.ch_value (Sensors.emf t)) 60 then 28 <= Sensors.ch_value (Sensors.motion t) else True).
Proof.
  split; [vm_compute; repeat split; discriminate|].
  apply (SensorExtra.update_emf_correlations 5 22 SensorExtra.night_draws Sensors.init);
    vm_compute; discriminate.
Defined.

End ExtraInstances.
